(** * mixfriend: the Logic Pro X Channel EQ preset encoder

    A shallow embedding of [mixfriend.py]: the module constants [HEADER],
    [FOOTER], [BAND_FIELD_ORDER] and [DEFAULT_Q], and the functions
    [pack_band] and [build_preset], together with the fragments of the
    Python runtime they rely on ([float], [dict.get], [struct.pack],
    [bytes.fromhex], exceptions).

    Python floats are IEEE-754 binary64 values, modelled by [spec_float]
    (NaN has no sign or payload there: it stands for the canonical quiet
    NaN).  Byte strings are [list byte]; dictionaries with string keys are
    [gmap string _]; a raised exception is the [Raise] case of [result]. *)

From Stdlib Require Import ZArith List String Ascii Lia.
From Stdlib.Strings Require Import Byte.
From Stdlib.Floats Require Import SpecFloat.
From stdpp Require Import base option list strings gmap pretty.

(** ** Exceptions and the error monad *)

Inductive PyExc : Type :=
  | KeyError (key : string)
      (* KeyError: '<key>' *)
  | TypeError (tyname : string)
      (* float() argument must be a string or a real number, not '<tyname>' *)
  | ValueError (text : string)
      (* could not convert string to float: <repr text> *)
  | OverflowError (msg : string)
  | StructError (msg : string)
  | AssertionError (msg : string).

Inductive result (A : Type) : Type :=
  | Ok (a : A)
  | Raise (e : PyExc).
Arguments Ok {A} a.
Arguments Raise {A} e.

#[global] Instance result_ret : MRet result := λ A a, Ok a.
#[global] Instance result_bind : MBind result := λ A B f m,
  match m with
  | Ok a => f a
  | Raise e => Raise e
  end.

Definition is_ok {A} (r : result A) : bool :=
  match r with Ok _ => true | Raise _ => false end.

(** ** IEEE-754 values: binary64 in memory, binary32 on the wire *)

Module IEEE.

Definition is_inf (x : spec_float) : bool :=
  match x with S754_infinity _ => true | _ => false end.

(** The double nearest to an integer (ties to even). *)
Definition of_Z (z : Z) : spec_float := binary_normalize 53 1024 z 0 false.

(** The value of precision [prec] and exponent bound [emax] nearest to
    [(-1)^neg * m * 10^e], for [0 <= m] (ties to even).  At 53 and 1024
    this is what the parser of float literals and of [float(str)]
    computes. *)
Definition of_decimal (prec emax : Z) (neg : bool) (m e : Z)
    : spec_float :=
  if (m =? 0)%Z then S754_zero neg
  else if (0 <=? e)%Z then
    binary_normalize prec emax (cond_Zopp neg (m * 10 ^ e)) 0 neg
  else
    let '(q, e', l) := SFdiv_core_binary prec emax m 0 (10 ^ (- e)) 0 in
    binary_round_aux prec emax neg q e' l.

(** The C cast [(float)x]: round to binary32, ties to even. *)
Definition to_single (x : spec_float) : spec_float :=
  match x with
  | S754_finite s m e => binary_round 24 128 s m e
  | _ => x
  end.

(** The C cast [(double)y] of a binary32 value: exact. *)
Definition to_double (y : spec_float) : spec_float :=
  match y with
  | S754_finite s m e => binary_round 53 1024 s m e
  | _ => y
  end.

Definition sign_bit (s : bool) : Z := if s then Z.shiftl 1 31 else 0%Z.

(** The 32-bit pattern of a binary32 value. *)
Definition bits32 (y : spec_float) : Z :=
  match y with
  | S754_zero s => sign_bit s
  | S754_infinity s => Z.lor (sign_bit s) 0x7f800000
  | S754_nan => 0x7fc00000%Z
  | S754_finite s m e =>
      if (Z.shiftl 1 23 <=? Z.pos m)%Z then
        Z.lor (sign_bit s)
          (Z.lor (Z.shiftl (e + 150) 23) (Z.pos m - Z.shiftl 1 23))
      else Z.lor (sign_bit s) (Z.pos m)
  end.

(** The binary32 value of a 32-bit pattern. *)
Definition of_bits32 (w : Z) : spec_float :=
  let s := Z.testbit w 31 in
  let ex := Z.land (Z.shiftr w 23) 0xff in
  let mant := Z.land w 0x7fffff in
  if (ex =? 0)%Z then
    match mant with
    | Z.pos m => S754_finite s m (-149)
    | _ => S754_zero s
    end
  else if (ex =? 255)%Z then
    (if (mant =? 0)%Z then S754_infinity s else S754_nan)
  else
    match Z.lor mant (Z.shiftl 1 23) with
    | Z.pos m => S754_finite s m (ex - 150)
    | _ => S754_nan
    end.

End IEEE.

(** ** Byte strings *)

Module Bytes.

Definition byte_of_Z (z : Z) : byte :=
  match Byte.of_N (Z.to_N (Z.land z 0xff)) with
  | Some b => b
  | None => x00
  end.

Definition Z_of_byte (b : byte) : Z := Z.of_N (Byte.to_N b).

(** [n] bytes of [z], least significant first. *)
Fixpoint to_le (n : nat) (z : Z) : list byte :=
  match n with
  | O => []
  | S n' => byte_of_Z z :: to_le n' (Z.shiftr z 8)
  end.

Fixpoint of_le (bs : list byte) : Z :=
  match bs with
  | [] => 0%Z
  | b :: bs' => Z.lor (Z_of_byte b) (Z.shiftl (of_le bs') 8)
  end.

(** Python's [b[i:j]]. *)
Definition slice (i j : nat) (bs : list byte) : list byte :=
  take (j - i) (drop i bs).

Definition of_string (s : string) : list byte :=
  byte_of_ascii <$> list_ascii_of_string s.

Definition hex_digit (c : ascii) : option Z :=
  let n := Z.of_nat (nat_of_ascii c) in
  if ((48 <=? n) && (n <=? 57))%Z then Some (n - 48)%Z
  else if ((97 <=? n) && (n <=? 102))%Z then Some (n - 87)%Z
  else if ((65 <=? n) && (n <=? 70))%Z then Some (n - 55)%Z
  else None.

Definition is_hex_space (c : ascii) : bool :=
  let n := Z.of_nat (nat_of_ascii c) in
  ((n =? 32) || ((9 <=? n) && (n <=? 13)))%Z.

(** [bytes.fromhex]: pairs of hexadecimal digits, white space allowed
    between the pairs; [None] stands for its ValueError. *)
Fixpoint fromhex_list (cs : list ascii) : option (list byte) :=
  match cs with
  | [] => Some []
  | c :: rest =>
      match hex_digit c, rest with
      | Some hi, c' :: rest' =>
          lo ← hex_digit c';
          bs ← fromhex_list rest';
          Some (byte_of_Z (16 * hi + lo) :: bs)
      | Some _, [] => None
      | None, _ => if is_hex_space c then fromhex_list rest else None
      end
  end.

Definition fromhex (s : string) : option (list byte) :=
  fromhex_list (list_ascii_of_string s).

End Bytes.

(** ** Python values, as [json.load] delivers them *)

#[local] Set Warnings "-register-all".

Inductive PyVal : Type :=
  | PyNone
  | PyBool (b : bool)
  | PyInt (z : Z)
  | PyFloat (x : spec_float)
  | PyStr (s : string)
  | PyList (items : list PyVal)
  | PyDict (items : list (string * PyVal)).

Module Py.

(** [v is False]: identity with the [False] singleton. *)
Definition is_False (v : PyVal) : bool :=
  match v with
  | PyBool false => true
  | _ => false
  end.

(** [d.get(key)] and [d.get(key, default)]. *)
Definition dict_get (d : gmap string PyVal) (key : string)
    (dflt : PyVal) : PyVal :=
  default dflt (d !! key).

(** [d[key]]. *)
Definition getitem {V} (d : gmap string V) (key : string) : result V :=
  match d !! key with
  | Some v => Ok v
  | None => Raise (KeyError key)
  end.

(** *** [float(str)], on ASCII text

    On text with a character beyond ASCII Python first turns Unicode
    white space into spaces and Unicode decimal digits into ASCII digits;
    that step is not modelled, so [float_of_string] follows Python on
    ASCII text ([ascii_only]) only.  The sign of a NaN written [-nan] is
    not kept either, [spec_float] having a single NaN. *)

Definition code (c : ascii) : Z := Z.of_nat (nat_of_ascii c).

Definition is_space (c : ascii) : bool :=
  ((code c =? 32) || ((9 <=? code c) && (code c <=? 13)))%Z.

Definition is_digit (c : ascii) : bool :=
  ((48 <=? code c) && (code c <=? 57))%Z.

Definition lower (c : ascii) : ascii :=
  if ((65 <=? code c) && (code c <=? 90))%Z
  then ascii_of_nat (nat_of_ascii c + 32) else c.

Fixpoint lstrip (cs : list ascii) : list ascii :=
  match cs with
  | c :: rest => if is_space c then lstrip rest else cs
  | [] => []
  end.

Definition strip (cs : list ascii) : list ascii :=
  rev (lstrip (rev (lstrip cs))).

(** Underscores may only stand between two digits; they are removed. *)
Fixpoint drop_underscores (prev : ascii) (cs : list ascii)
    : option (list ascii) :=
  match cs with
  | [] => if Ascii.eqb prev "_" then None else Some []
  | c :: rest =>
      if Ascii.eqb c "_" then
        if is_digit prev then drop_underscores c rest else None
      else if Ascii.eqb prev "_" && negb (is_digit c) then None
      else (c ::.) <$> drop_underscores c rest
  end.

(** Leading digits: their value on top of [acc], how many, the rest. *)
Fixpoint digits (cs : list ascii) (acc : Z) (n : nat)
    : Z * nat * list ascii :=
  match cs with
  | c :: rest =>
      if is_digit c then digits rest (10 * acc + (code c - 48))%Z (S n)
      else (acc, n, cs)
  | [] => (acc, n, [])
  end.

Definition sign (cs : list ascii) : bool * list ascii :=
  match cs with
  | c :: rest =>
      if Ascii.eqb c "-" then (true, rest)
      else if Ascii.eqb c "+" then (false, rest)
      else (false, cs)
  | [] => (false, [])
  end.

(** [digits [. digits] [(e|E) [sign] digits]] with a digit in the
    mantissa: the decimal mantissa and exponent. *)
Definition number (cs : list ascii) : option (Z * Z) :=
  let '(ip, ni, r1) := digits cs 0 0 in
  let '(m, nf, r2) :=
    match r1 with
    | c :: r => if Ascii.eqb c "." then digits r ip 0 else (ip, 0%nat, r1)
    | [] => (ip, 0%nat, r1)
    end in
  if (ni + nf =? 0)%nat then None
  else
    match r2 with
    | [] => Some (m, (- Z.of_nat nf)%Z)
    | c :: r =>
        if Ascii.eqb (lower c) "e" then
          let '(neg, r3) := sign r in
          let '(ex, ne, r4) := digits r3 0 0 in
          match ne, r4 with
          | S _, [] => Some (m, (cond_Zopp neg ex - Z.of_nat nf)%Z)
          | _, _ => None
          end
        else None
    end.

Definition float_of_string (s : string) : option spec_float :=
  cs ← drop_underscores "000" (strip (list_ascii_of_string s));
  let '(neg, body) := sign cs in
  let word := string_of_list_ascii (lower <$> body) in
  if String.eqb word "inf" || String.eqb word "infinity"
  then Some (S754_infinity neg)
  else if String.eqb word "nan" then Some S754_nan
  else '(m, e) ← number body; Some (IEEE.of_decimal 53 1024 neg m e).

(** A float literal of the source text. *)
Definition literal (s : string) : spec_float :=
  default S754_nan (float_of_string s).

(** *** [float(v)] *)

Definition float (v : PyVal) : result spec_float :=
  match v with
  | PyFloat x => Ok x
  | PyBool b => Ok (IEEE.of_Z (if b then 1 else 0))
  | PyInt z =>
      let x := IEEE.of_Z z in
      if IEEE.is_inf x
      then Raise (OverflowError "int too large to convert to float")
      else Ok x
  | PyStr s =>
      match float_of_string s with
      | Some x => Ok x
      | None => Raise (ValueError s)
      end
  | PyNone => Raise (TypeError "NoneType")
  | PyList _ => Raise (TypeError "list")
  | PyDict _ => Raise (TypeError "dict")
  end.

End Py.

(** ** [struct.pack] and [struct.unpack], little-endian standard sizes *)

Module Struct.

Inductive arg : Type :=
  | AInt (z : Z)
  | ABytes (b : list byte)
  | AFloat (x : spec_float).

(** The format characters in use: [I], [f] and [<n>s]. *)
Inductive item : Type :=
  | U32
  | F32
  | Chars (n : nat).

Fixpoint items (cs : list ascii) (count : option nat)
    : option (list item) :=
  match cs with
  | [] => match count with None => Some [] | Some _ => None end
  | c :: rest =>
      if Py.is_digit c then
        items rest
          (Some (10 * default 0 count + Z.to_nat (Py.code c - 48)))
      else if Py.is_space c then
        match count with None => items rest None | Some _ => None end
      else if Ascii.eqb c "I" then
        (replicate (default 1 count) U32 ++.) <$> items rest None
      else if Ascii.eqb c "f" then
        (replicate (default 1 count) F32 ++.) <$> items rest None
      else if Ascii.eqb c "s" then
        (Chars (default 1 count) ::.) <$> items rest None
      else None
  end.

(** A C double stored as a 4-byte float: the value is cast to [float], and
    a finite value that the cast turns into an infinity is refused. *)
Definition pack_f (x : spec_float) : result (list byte) :=
  let y := IEEE.to_single x in
  if IEEE.is_inf y && negb (IEEE.is_inf x)
  then Raise (OverflowError "float too large to pack with f format")
  else Ok (Bytes.to_le 4 (IEEE.bits32 y)).

Definition pack_item (it : item) (a : arg) : result (list byte) :=
  match it, a with
  | U32, AInt z =>
      if ((0 <=? z) && (z <? 2 ^ 32))%Z then Ok (Bytes.to_le 4 z)
      else Raise (StructError "argument out of range")
  | U32, _ => Raise (StructError "required argument is not an integer")
  | F32, AFloat x => pack_f x
  | F32, AInt z => x ← Py.float (PyInt z); pack_f x
  | F32, ABytes _ => Raise (StructError "required argument is not a float")
  | Chars n, ABytes b => Ok (take n (b ++ replicate n x00))
  | Chars _, _ =>
      Raise (StructError "argument for 's' must be a bytes object")
  end.

Fixpoint pack_items (its : list item) (args : list arg)
    : result (list byte) :=
  match its, args with
  | it :: its', a :: args' =>
      b ← pack_item it a;
      bs ← pack_items its' args';
      Ok (b ++ bs)
  | _, _ => Ok []
  end.

(** [struct.pack(fmt, *args)] for a format that starts with [<]. *)
Definition pack (fmt : string) (args : list arg) : result (list byte) :=
  match list_ascii_of_string fmt with
  | c :: cs =>
      if Ascii.eqb c "<" then
        match items cs None with
        | Some its =>
            if (length its =? length args)%nat then pack_items its args
            else Raise (StructError "pack expected a different number of items")
        | None => Raise (StructError "bad char in struct format")
        end
      else Raise (StructError "byte order other than < is not modelled")
  | [] => Raise (StructError "byte order other than < is not modelled")
  end.

(** [struct.unpack("<I", b)[0]] and [struct.unpack("<f", b)[0]]. *)
Definition unpack_I (bs : list byte) : Z := Bytes.of_le bs.
Definition unpack_f (bs : list byte) : spec_float :=
  IEEE.to_double (IEEE.of_bits32 (Bytes.of_le bs)).

End Struct.

(** ** The module [mixfriend] *)

(** A module-level expression that raised would abort the import; the
    constants below are shown to evaluate without raising. *)
Definition from_ok (r : result (list byte)) : list byte :=
  match r with Ok b => b | Raise _ => [] end.

Definition HEADER : list byte :=
  from_ok (Struct.pack "<III8sI"
    [ Struct.AInt 240                               (* file size *)
    ; Struct.AInt 1                                 (* version *)
    ; Struct.AInt 52                                (* unknown field *)
    ; Struct.ABytes (Bytes.of_string "GAMETSPP")    (* magic *)
    ; Struct.AInt 236                               (* data size *)
    ]).

(** 88-byte footer (analyzer settings, output gain, etc.) *)
Definition FOOTER_hex : string :=
  "8fc2353f00000000000000003333434100000000000000000000000000000040"
  +:+ "00000000000020410000803f000000bf000000000000803f000000000000803f"
  +:+ "0000704200000000000070420000803f7838504c08000000".

Definition FOOTER : list byte := default [] (Bytes.fromhex FOOTER_hex).

(** Current order: [Q, enabled, frequency, gain] *)
Definition BAND_FIELD_ORDER : list string :=
  ["q"; "enabled"; "frequency"; "gain"]%string.

Definition DEFAULT_Q : spec_float := Py.literal "0.71".

Definition f_zero : spec_float := Py.literal "0.0".
Definition f_one : spec_float := Py.literal "1.0".

(** Pack a single EQ band as 16 bytes (4 little-endian floats). *)
Definition pack_band (q enabled frequency gain : spec_float)
    : result (list byte) :=
  let fields : gmap string spec_float :=
    {[ "q" := q; "enabled" := enabled;
       "frequency" := frequency; "gain" := gain ]}%string in
  values ← mapM (Py.getitem fields) BAND_FIELD_ORDER;
  Struct.pack "<ffff" (Struct.AFloat <$> values).

(** The body of the loop of [build_preset], for one band: the four
    conversions in the order of the source, then [pack_band]. *)
Definition band_record (band : gmap string PyVal) : result (list byte) :=
  q ← Py.float (Py.dict_get band "q" (PyFloat DEFAULT_Q));
  let enabled :=
    if Py.is_False (Py.dict_get band "enabled" PyNone)
    then f_zero else f_one in
  fv ← Py.getitem band "frequency";
  frequency ← Py.float fv;
  gain ← Py.float (Py.dict_get band "gain" (PyFloat f_zero));
  pack_band q enabled frequency gain.

(** [for band in bands_config: ... band_data += pack_band(...)] *)
Fixpoint pack_bands (bands_config : list (gmap string PyVal))
    (band_data : list byte) : result (list byte) :=
  match bands_config with
  | [] => Ok band_data
  | band :: rest =>
      rec ← band_record band;
      pack_bands rest (band_data ++ rec)
  end.

(** The preset as assembled, before the final self-check. *)
Definition assemble (bands_config : list (gmap string PyVal))
    : result (list byte) :=
  band_data ← pack_bands bands_config [];
  Ok (HEADER ++ band_data ++ FOOTER).

Definition size_mismatch (n : nat) : string :=
  "Preset size mismatch: " +:+ pretty n +:+ " != 240".

(** Build a complete 240-byte .pst file from a list of 8 band dicts. *)
Definition build_preset (bands_config : list (gmap string PyVal))
    : result (list byte) :=
  preset ← assemble bands_config;
  if (length preset =? 240)%nat then Ok preset
  else Raise (AssertionError (size_mismatch (length preset))).

(** ** Inputs on which a band packs *)

(** A finite double fits the 4-byte format when its cast is finite. *)
Definition fits_single (x : spec_float) : bool :=
  negb (IEEE.is_inf (IEEE.to_single x) && negb (IEEE.is_inf x)).

(** [float(v)] returns, and the result fits the 4-byte format. *)
Definition packable (v : PyVal) : bool :=
  match Py.float v with
  | Ok x => fits_single x
  | Raise _ => false
  end.

Definition band_ok (band : gmap string PyVal) : bool :=
  packable (Py.dict_get band "q" (PyFloat DEFAULT_Q))
  && match band !! "frequency"%string with
     | Some v => packable v
     | None => false
     end
  && packable (Py.dict_get band "gain" (PyFloat f_zero)).

(** The frequency of the band is present and [float] accepts it. *)
Definition frequency_convertible (band : gmap string PyVal) : bool :=
  match band !! "frequency"%string with
  | Some v => is_ok (Py.float v)
  | None => false
  end.

(** Text whose characters are all ASCII.  [Py.float_of_string] and
    [Dyn.lower] follow Python on such text; on other text Python also
    reads Unicode white space and digits, and lowers non-ASCII letters,
    so the statements that depend on what these two return are made for
    ASCII text. *)
Definition ascii_only (s : string) : bool :=
  forallb (λ c, (Py.code c <? 128)%Z) (list_ascii_of_string s).

Definition ascii_value (v : PyVal) : bool :=
  match v with
  | PyStr s => ascii_only s
  | _ => true
  end.

(** The values of the band that the loop hands to [float] are ASCII
    where they are strings. *)
Definition ascii_band (band : gmap string PyVal) : bool :=
  ascii_value (Py.dict_get band "q" (PyFloat DEFAULT_Q))
  && ascii_value (Py.dict_get band "frequency" PyNone)
  && ascii_value (Py.dict_get band "gain" (PyFloat f_zero)).

(** The enabled flag as the source computes it. *)
Definition enabled_float (band : gmap string PyVal) : spec_float :=
  if Py.is_False (Py.dict_get band "enabled" PyNone) then f_zero else f_one.

(** The four bytes of a double in the 4-byte little-endian format. *)
Definition f32le (x : spec_float) : list byte :=
  Bytes.to_le 4 (IEEE.bits32 (IEEE.to_single x)).

(** The first band whose loop body raises, with its exception. *)
Fixpoint first_error (bands : list (gmap string PyVal)) (i : nat)
    : option (nat * PyExc) :=
  match bands with
  | [] => None
  | band :: rest =>
      match band_record band with
      | Ok _ => first_error rest (S i)
      | Raise e => Some (i, e)
      end
  end.

(** ** Offsets of the file layout, and sample inputs *)

(** The band record [i]: [out[24 + 16*i : 40 + 16*i]]. *)
Definition record_at (i : nat) (out : list byte) : list byte :=
  Bytes.slice (24 + 16 * i) (40 + 16 * i) out.

(** The float [k] of a record: [rec[4*k : 4*k + 4]]. *)
Definition field (k : nat) (rec : list byte) : list byte :=
  Bytes.slice (4 * k) (4 * k + 4) rec.

Definition too_large : PyExc :=
  OverflowError "float too large to pack with f format".

(** [{frequency:100, gain:0, q:0.71, enabled:true}] seven times, then
    [{frequency:8000, gain:-3, q:0.71, enabled:false}]. *)
Definition scenario : list (gmap string PyVal) :=
  replicate 7
    ({[ "frequency" := PyInt 100; "gain" := PyInt 0;
        "q" := PyFloat (Py.literal "0.71");
        "enabled" := PyBool true ]}%string : gmap string PyVal)
  ++ [ {[ "frequency" := PyInt 8000; "gain" := PyInt (-3);
          "q" := PyFloat (Py.literal "0.71");
          "enabled" := PyBool false ]}%string ].

(** [{"frequency": 1000}]: every optional key left out. *)
Definition bare_band : gmap string PyVal :=
  {[ "frequency" := PyInt 1000 ]}%string.

(** [{"q": 1.0, "frequency": 2.0, "gain": 3.0}]. *)
Definition ordered_band : gmap string PyVal :=
  {[ "q" := PyFloat (Py.literal "1.0");
     "frequency" := PyFloat (Py.literal "2.0");
     "gain" := PyFloat (Py.literal "3.0") ]}%string.

(** [{"frequency": 1e39, "gain": 0.0, "q": 0.71, "enabled": true}]: a
    double beyond the range of the 4-byte format. *)
Definition huge_band : gmap string PyVal :=
  {[ "frequency" := PyFloat (Py.literal "1e39");
     "gain" := PyFloat (Py.literal "0.0");
     "q" := PyFloat (Py.literal "0.71");
     "enabled" := PyBool true ]}%string.

(** [{}]: a band without any key. *)
Definition empty_band : gmap string PyVal := ∅.

(** The presets of the sample inputs (the lemmas [scenario_builds],
    [bare_builds] and [ordered_builds] show that [build_preset] returns
    them). *)
Definition scenario_preset : list byte := from_ok (build_preset scenario).
Definition bare_preset : list byte :=
  from_ok (build_preset (replicate 8 bare_band)).
Definition ordered_preset : list byte :=
  from_ok (build_preset (replicate 8 ordered_band)).

(** ** The callers of the encoder

    [generate_preset], [list_devices] and [main] work on whatever
    [json.load] returned, so every access is dynamically typed here, and
    they act on the file system and the terminal, which are parameters. *)

(** The exceptions of the callers.  [Builtin] carries the exceptions of
    the encoder (and [KeyError] for a missing string key). *)
Inductive Error : Type :=
  | Builtin (e : PyExc)
  | KeyErrorInt (i : nat)
      (* KeyError: <i> *)
  | AttributeError (tyname attr : string)
      (* '<tyname>' object has no attribute '<attr>' *)
  | NotIterable (tyname : string)
      (* TypeError: '<tyname>' object is not iterable *)
  | BadSubscript (tyname : string)
      (* TypeError of v[key] for a v of this type and a key of the wrong
         kind: not subscriptable, or indices must be integers *)
  | NoLen (tyname : string)
      (* TypeError: object of type '<tyname>' has no len() *)
  | IndexError (tyname : string)
      (* IndexError: <tyname> index out of range *)
  | BadFormat (tyname : string)
      (* TypeError: unsupported format string passed to <tyname>.__format__ *)
  | BadPath (tyname : string)
      (* TypeError: join() argument must be str, bytes, or os.PathLike
         object, not '<tyname>' *)
  | OSError (info : string)
  | SystemExit (code : Z).

Inductive outcome (A : Type) : Type :=
  | Return (a : A)
  | Throw (e : Error).
Arguments Return {A} a.
Arguments Throw {A} e.

#[global] Instance outcome_ret : MRet outcome := λ A a, Return a.
#[global] Instance outcome_bind : MBind outcome := λ A B f m,
  match m with
  | Return a => f a
  | Throw e => Throw e
  end.

Definition of_result {A} (r : result A) : outcome A :=
  match r with
  | Ok a => Return a
  | Raise e => Throw (Builtin e)
  end.

Module Dyn.

(** [type(v).__name__] *)
Definition type_name (v : PyVal) : string :=
  match v with
  | PyNone => "NoneType"
  | PyBool _ => "bool"
  | PyInt _ => "int"
  | PyFloat _ => "float"
  | PyStr _ => "str"
  | PyList _ => "list"
  | PyDict _ => "dict"
  end.

(** The dictionary of a [PyDict]: its entries list each key once. *)
Definition dict_of (items : list (string * PyVal)) : gmap string PyVal :=
  list_to_map items.

Fixpoint chars (s : string) : list PyVal :=
  match s with
  | EmptyString => []
  | String c rest => PyStr (String c EmptyString) :: chars rest
  end.

(** What [for x in v] runs through: the items of a list, the keys of a
    dict, the characters of a str. *)
Definition iter (v : PyVal) : outcome (list PyVal) :=
  match v with
  | PyList items => Return items
  | PyDict items => Return ((λ kv, PyStr kv.1) <$> items)
  | PyStr s => Return (chars s)
  | _ => Throw (NotIterable (type_name v))
  end.

(** [len(v)] *)
Definition len (v : PyVal) : outcome nat :=
  match v with
  | PyList items => Return (length items)
  | PyDict items => Return (length items)
  | PyStr s => Return (String.length s)
  | _ => Throw (NoLen (type_name v))
  end.

(** [v[key]] for a string key. *)
Definition subscript (v : PyVal) (key : string) : outcome PyVal :=
  match v with
  | PyDict items => of_result (Py.getitem (dict_of items) key)
  | _ => Throw (BadSubscript (type_name v))
  end.

(** [v[i]] for an index [i >= 0]. *)
Definition index (v : PyVal) (i : nat) : outcome PyVal :=
  match v with
  | PyList items =>
      match items !! i with
      | Some x => Return x
      | None => Throw (IndexError "list")
      end
  | PyStr s =>
      match chars s !! i with
      | Some x => Return x
      | None => Throw (IndexError "string")
      end
  | PyDict _ => Throw (KeyErrorInt i)
  | _ => Throw (BadSubscript (type_name v))
  end.

(** [v.get(key, dflt)] *)
Definition get (v : PyVal) (key : string) (dflt : PyVal) : outcome PyVal :=
  match v with
  | PyDict items => Return (Py.dict_get (dict_of items) key dflt)
  | _ => Throw (AttributeError (type_name v) "get")
  end.

Definition map_chars (f : ascii → ascii) (s : string) : string :=
  string_of_list_ascii (f <$> list_ascii_of_string s).

(** [v.lower()], on ASCII text: the letters A to Z.  Python also lowers
    the letters beyond ASCII, so what [lower] returns is used for ASCII
    text ([ascii_only]) only. *)
Definition lower (v : PyVal) : outcome string :=
  match v with
  | PyStr s => Return (map_chars Py.lower s)
  | _ => Throw (AttributeError (type_name v) "lower")
  end.

(** [v.replace(" ", "_")] *)
Definition replace_spaces (v : PyVal) : outcome string :=
  match v with
  | PyStr s =>
      Return (map_chars (λ c, if Ascii.eqb c " " then "_"%char else c) s)
  | _ => Throw (AttributeError (type_name v) "replace")
  end.

(** [needle in hay], for two strings. *)
Fixpoint contains (needle hay : string) : bool :=
  String.prefix needle hay
  || match hay with
     | EmptyString => false
     | String _ rest => contains needle rest
     end.

(** [f"{v:<22}"]: left-aligned in 22 columns, never cut; numbers are
    rendered by [str_of], a bool as the int it is. *)
Definition ljust22 (str_of : PyVal → string) (v : PyVal) : outcome string :=
  let pad s := (s +:+ string_of_list_ascii
                        (replicate (22 - String.length s) " "%char)) in
  match v with
  | PyStr s => Return (pad s)
  | PyInt _ | PyFloat _ => Return (pad (str_of v))
  | PyBool b => Return (pad (str_of (PyInt (if b then 1 else 0))))
  | _ => Throw (BadFormat (type_name v))
  end.

(** [f"{v}"] *)
Definition to_str (str_of : PyVal → string) (v : PyVal) : string :=
  match v with
  | PyStr s => s
  | _ => str_of v
  end.

End Dyn.

(** [posixpath]: [os.path.join] of two components, [dirname],
    [basename]. *)
Module Path.

Definition starts_with_sep (s : string) : bool :=
  match s with
  | String c _ => Ascii.eqb c "/"
  | EmptyString => false
  end.

Definition ends_with_sep (s : string) : bool :=
  match rev (list_ascii_of_string s) with
  | c :: _ => Ascii.eqb c "/"
  | [] => false
  end.

Definition join (a : string) (b : PyVal) : outcome string :=
  match b with
  | PyStr b =>
      if starts_with_sep b then Return b
      else if String.eqb a "" || ends_with_sep a then Return (a +:+ b)
      else Return (a +:+ "/" +:+ b)
  | _ => Throw (BadPath (Dyn.type_name b))
  end.

Fixpoint strip_seps (rcs : list ascii) : list ascii :=
  match rcs with
  | c :: rest => if Ascii.eqb c "/" then strip_seps rest else rcs
  | [] => []
  end.

(** The part after the last [/], reversed, and the part up to and
    including it, reversed. *)
Fixpoint split_last (rcs : list ascii) : list ascii * list ascii :=
  match rcs with
  | c :: rest =>
      if Ascii.eqb c "/" then ([], rcs)
      else let '(tl, hd) := split_last rest in (c :: tl, hd)
  | [] => ([], [])
  end.

Definition dirname (p : string) : string :=
  let head := (split_last (rev (list_ascii_of_string p))).2 in
  match strip_seps head with
  | [] => string_of_list_ascii (rev head)
  | stripped => string_of_list_ascii (rev stripped)
  end.

Definition basename (p : string) : string :=
  string_of_list_ascii
    (rev (split_last (rev (list_ascii_of_string p))).1).

End Path.

(** [build_preset(v)] for an arbitrary value [v]: the loop and the
    self-check of [build_preset], with the dynamic checks that the typed
    function leaves to its input type ([for band in v], [band.get]). *)
Definition as_band (band : PyVal) : outcome (gmap string PyVal) :=
  match band with
  | PyDict items => Return (Dyn.dict_of items)
  | _ => Throw (AttributeError (Dyn.type_name band) "get")
  end.

Fixpoint pack_values (items : list PyVal) (band_data : list byte)
    : outcome (list byte) :=
  match items with
  | [] => Return band_data
  | band :: rest =>
      d ← as_band band;
      rec ← of_result (band_record d);
      pack_values rest (band_data ++ rec)
  end.

Definition build_preset_value (bands_config : PyVal)
    : outcome (list byte) :=
  items ← Dyn.iter bands_config;
  band_data ← pack_values items [];
  let preset := HEADER ++ band_data ++ FOOTER in
  if (length preset =? 240)%nat then Return preset
  else Throw (Builtin (AssertionError (size_mismatch (length preset)))).

(** [sum(1 for b in bands if b.get("enabled") is not False)] *)
Fixpoint count_active (items : list PyVal) : outcome nat :=
  match items with
  | [] => Return 0
  | b :: rest =>
      v ← Dyn.get b "enabled" PyNone;
      n ← count_active rest;
      Return (if Py.is_False v then n else S n)
  end.

Definition active_bands (bands : PyVal) : outcome nat :=
  items ← Dyn.iter bands;
  count_active items.

(** The operating system: a state and the operations the program calls.
    Each operation may change the state and may raise. *)
Record OS : Type := {
  World : Type;
  (* os.makedirs(path, exist_ok=True) *)
  makedirs : string → World → World * outcome unit;
  (* with open(path, "wb") as f: f.write(data) *)
  write_binary : string → list byte → World → World * outcome unit;
  (* with open(path, "r") as f: json.load(f) *)
  read_json : string → World → World * outcome PyVal;
  (* os.path.abspath(path) *)
  abspath : string → World → World * outcome string;
  (* print(line) and print(line, file=sys.stderr) *)
  print_out : string → World → World * outcome unit;
  print_err : string → World → World * outcome unit;
  (* str(v), for a v that is not a str *)
  str_of : PyVal → string;
}.

(** Computations that act on the operating system and may raise. *)
Definition M (os : OS) (A : Type) : Type := World os → World os * outcome A.

Definition ret {os A} (a : A) : M os A := λ w, (w, Return a).

Definition bind {os A B} (m : M os A) (f : A → M os B) : M os B :=
  λ w, match m w with
       | (w', Return a) => f a w'
       | (w', Throw e) => (w', Throw e)
       end.

(** A step that does not touch the operating system. *)
Definition pure {os A} (o : outcome A) : M os A := λ w, (w, o).

Declare Scope os_scope.
Delimit Scope os_scope with os.
Notation "x <- m ;; k" := (bind m (λ x, k))
  (at level 100, m at next level, right associativity) : os_scope.
Notation "m ;; k" := (bind m (λ _, k))
  (at level 100, right associativity) : os_scope.

(** [for x in items: body(x)] *)
Fixpoint for_each {os A} (items : list A) (body : A → M os unit)
    : M os unit :=
  match items with
  | [] => ret ()
  | x :: rest => (body x ;; for_each rest body)%os
  end.

(** [device["name"].replace(" ", "_") + ".pst"] *)
Definition default_filename (device : PyVal) : outcome string :=
  name ← Dyn.subscript device "name";
  replaced ← Dyn.replace_spaces name;
  Return (replaced +:+ ".pst").

(** Generate a single .pst file for a device profile. Returns output
    path. *)
Definition generate_preset (os : OS) (device : PyVal) (output_dir : string)
    : M os string :=
  (preset_data <- pure (bands ← Dyn.subscript device "bands";
                        build_preset_value bands) ;;
   filename <- pure (dflt ← default_filename device;
                     Dyn.get device "filename" (PyStr dflt)) ;;
   output_path <- pure (Path.join output_dir filename) ;;
   makedirs os (Path.dirname output_path) ;;
   write_binary os output_path preset_data ;;
   ret output_path)%os.

(** What [generate_preset] computes before it touches the file system:
    the preset and the output path. *)
Definition preset_and_path (device : PyVal) (output_dir : string)
    : outcome (list byte * string) :=
  preset_data ← (bands ← Dyn.subscript device "bands";
                 build_preset_value bands);
  filename ← (dflt ← default_filename device;
              Dyn.get device "filename" (PyStr dflt));
  output_path ← Path.join output_dir filename;
  Return (preset_data, output_path).

(** The line of one device in [list_devices]. *)
Definition listing_line (os : OS) (d : PyVal) : outcome string :=
  bands ← Dyn.subscript d "bands";
  active ← active_bands bands;
  name ← Dyn.subscript d "name";
  name22 ← Dyn.ljust22 (str_of os) name;
  filename ← Dyn.get d "filename" (PyStr "?");
  Return ("  " +:+ name22 +:+ " " +:+ pretty active
          +:+ "/8 bands active  ->  " +:+ Dyn.to_str (str_of os) filename).

(** The character [\n]. *)
Definition newline : string := String (ascii_of_nat 10) EmptyString.

(** Print available device profiles. *)
Definition list_devices (os : OS) (devices : PyVal) : M os unit :=
  (n <- pure (Dyn.len devices) ;;
   print_out os ("Available devices (" +:+ pretty n +:+ "):" +:+ newline) ;;
   items <- pure (Dyn.iter devices) ;;
   for_each items (λ d, line <- pure (listing_line os d) ;;
                        print_out os line) ;;
   print_out os "")%os.

(** Load device profiles from JSON config. *)
Definition load_devices (os : OS) (config_path : string) : M os PyVal :=
  (doc <- read_json os config_path ;;
   pure (Dyn.subscript doc "devices"))%os.

(** The parsed command line. *)
Record Args : Type := {
  config : string;
  output : string;
  list_flag : bool;
  device : option string;
}.

(** [[d for d in devices if query in d["name"].lower()]] *)
Fixpoint matching (query : string) (items : list PyVal)
    : outcome (list PyVal) :=
  match items with
  | [] => Return []
  | d :: rest =>
      name ← Dyn.subscript d "name";
      low ← Dyn.lower name;
      tl ← matching query rest;
      Return (if Dyn.contains query low then d :: tl else tl)
  end.

(** The summary line of one generated device in [main]. *)
Definition summary_line (os : OS) (device : PyVal) (path : string)
    : outcome string :=
  bands ← Dyn.subscript device "bands";
  active ← active_bands bands;
  band0 ← Dyn.index bands 0;
  hp_freq ← Dyn.subscript band0 "frequency";
  band7 ← Dyn.index bands 7;
  lp_freq ← Dyn.subscript band7 "frequency";
  name ← Dyn.subscript device "name";
  name22 ← Dyn.ljust22 (str_of os) name;
  Return ("  " +:+ name22 +:+ " " +:+ pretty active +:+ "/8 bands  HP="
          +:+ Dyn.to_str (str_of os) hp_freq +:+ "Hz  LP="
          +:+ Dyn.to_str (str_of os) lp_freq +:+ "Hz  ->  "
          +:+ Path.basename path).

(** The body of the generation loop of [main]. *)
Definition generate_and_report (os : OS) (output_dir : string)
    (device : PyVal) : M os unit :=
  (path <- generate_preset os device output_dir ;;
   line <- pure (summary_line os device path) ;;
   print_out os line)%os.

(** The targets of [main]: the devices that match [--device], or all
    devices where the option is absent or empty. *)
Definition select_targets (os : OS) (devices : PyVal)
    (device_arg : option string) : M os PyVal :=
  match device_arg with
  | Some arg =>
      if String.eqb arg "" then ret devices
      else
        (matches <- pure (items ← Dyn.iter devices;
                          matching (Dyn.map_chars Py.lower arg) items) ;;
         match matches with
         | [] =>
             (print_err os ("No device matching '" +:+ arg
                            +:+ "'. Use --list to see options.") ;;
              pure (Throw (SystemExit 1)))
         | _ => ret (PyList matches)
         end)%os
  | None => ret devices
  end.

(** [main], from the parsed arguments on. *)
Definition main (os : OS) (args : Args) : M os unit :=
  (devices <- load_devices os (config args) ;;
   if list_flag args then list_devices os devices
   else
     (makedirs os (output args) ;;
      targets <- select_targets os devices (device args) ;;
      n <- pure (Dyn.len targets) ;;
      dir <- abspath os (output args) ;;
      print_out os ("Generating " +:+ pretty n +:+ " preset(s) -> "
                    +:+ dir +:+ "/" +:+ newline) ;;
      items <- pure (Dyn.iter targets) ;;
      for_each items (generate_and_report os (output args)) ;;
      n' <- pure (Dyn.len targets) ;;
      print_out os (newline +:+ "Done. " +:+ pretty n'
                    +:+ " preset(s) written.")))%os.

(** An operating system for the examples: every operation succeeds and
    is logged; the configuration file holds [doc]. *)
Inductive Event : Type :=
  | MadeDirs (path : string)
  | Wrote (path : string) (data : list byte)
  | Printed (line : string)
  | PrintedErr (line : string).

Definition logging_os (doc : PyVal) : OS := {|
  World := list Event;
  makedirs path w := (w ++ [MadeDirs path], Return ());
  write_binary path data w := (w ++ [Wrote path data], Return ());
  read_json _ w := (w, Return doc);
  abspath path w := (w, Return ("/home/user/" +:+ path));
  print_out line w := (w ++ [Printed line], Return ());
  print_err line w := (w ++ [PrintedErr line], Return ());
  str_of _ := "?";
|}.

(** The same, on a read-only file system: [os.makedirs] raises. *)
Definition readonly_os (doc : PyVal) : OS := {|
  World := list Event;
  makedirs path w := (w, Throw (OSError "Read-only file system"));
  write_binary path data w := (w ++ [Wrote path data], Return ());
  read_json _ w := (w, Return doc);
  abspath path w := (w, Return ("/home/user/" +:+ path));
  print_out line w := (w ++ [Printed line], Return ());
  print_err line w := (w ++ [PrintedErr line], Return ());
  str_of _ := "?";
|}.

(** The entries of a band of the sample run, as [json.load] gives it. *)
Definition flat_band : PyVal :=
  PyDict [ ("frequency", PyInt 100); ("gain", PyInt 0);
           ("q", PyFloat (Py.literal "0.71"));
           ("enabled", PyBool true) ]%string.

Definition cut_band : PyVal :=
  PyDict [ ("frequency", PyInt 8000); ("gain", PyInt (-3));
           ("q", PyFloat (Py.literal "0.71"));
           ("enabled", PyBool false) ]%string.

(** [{"name": "Phone Speaker", "bands": [...]}], without a filename. *)
Definition phone : PyVal :=
  PyDict [ ("name", PyStr "Phone Speaker");
           ("bands", PyList (replicate 7 flat_band ++ [cut_band])) ]%string.

(** [{"name": "Laptop", "filename": "devices/laptop.pst", "bands": [...]}] *)
Definition laptop : PyVal :=
  PyDict [ ("name", PyStr "Laptop");
           ("filename", PyStr "devices/laptop.pst");
           ("bands", PyList (replicate 8 flat_band)) ]%string.

(** The preset of [laptop]. *)
Definition bare_laptop_preset : list byte :=
  from_ok (build_preset (replicate 8 (Dyn.dict_of
    [ ("frequency", PyInt 100); ("gain", PyInt 0);
      ("q", PyFloat (Py.literal "0.71"));
      ("enabled", PyBool true) ]%string))).

(** A device with seven bands only. *)
Definition broken : PyVal :=
  PyDict [ ("name", PyStr "Broken");
           ("bands", PyList (replicate 7 flat_band)) ]%string.

(** ** Generic facts: results and slices *)

Section Results.
Context {A B : Type}.

Lemma bind_Ok_inv (m : result A) (f : A → result B) (b : B) :
  m ≫= f = Ok b → ∃ a, m = Ok a ∧ f a = Ok b.
Proof. destruct m as [a|e]; [eauto | discriminate]. Qed.

Lemma bind_Raise_inv (m : result A) (f : A → result B) (e : PyExc) :
  m ≫= f = Raise e → m = Raise e ∨ ∃ a, m = Ok a ∧ f a = Raise e.
Proof. destruct m as [a|e']; cbn; intros H; [right; eauto | left; congruence]. Qed.
End Results.

Section Slices.
Context {A : Type}.
Implicit Types (l r pre post : list A) (ls : list (list A)).

Lemma chunk_at n ls i r post :
  Forall (λ c, length c = n) ls → ls !! i = Some r →
  take n (drop (n * i) (concat ls ++ post)) = r.
Proof.
  intros Hall. revert i. induction Hall as [|c ls Hc _ IH]; intros i Hi.
  - done.
  - simpl in Hc. destruct i as [|i]; simpl in Hi.
    + injection Hi as ->. rewrite Nat.mul_0_r, drop_0. simpl.
      rewrite <- app_assoc. by rewrite take_app_length'.
    + simpl. rewrite <- app_assoc.
      replace (n * S i) with (length c + n * i) by lia.
      rewrite <- drop_drop, drop_app_length. by apply IH.
Qed.

Lemma concat_length_const n ls :
  Forall (λ c, length c = n) ls → length (concat ls) = n * length ls.
Proof.
  induction 1 as [|c ls Hc _ IH]; simpl in *; [lia|].
  rewrite length_app, IH, Hc. lia.
Qed.
End Slices.

(** ** The constants evaluate *)

Lemma HEADER_evaluates :
  Struct.pack "<III8sI"
    [ Struct.AInt 240; Struct.AInt 1; Struct.AInt 52;
      Struct.ABytes (Bytes.of_string "GAMETSPP"); Struct.AInt 236 ]
  = Ok HEADER.
Proof. reflexivity. Qed.

Lemma FOOTER_evaluates : Bytes.fromhex FOOTER_hex = Some FOOTER.
Proof. reflexivity. Qed.

Lemma HEADER_length : length HEADER = 24.
Proof. reflexivity. Qed.

Lemma FOOTER_length : length FOOTER = 88.
Proof. reflexivity. Qed.

Lemma pack_f_spec x :
  Struct.pack_f x = if fits_single x then Ok (f32le x) else Raise too_large.
Proof.
  unfold Struct.pack_f, fits_single, f32le.
  by destruct (IEEE.is_inf (IEEE.to_single x) && negb (IEEE.is_inf x)).
Qed.

Lemma f32le_length x : length (f32le x) = 4.
Proof. reflexivity. Qed.

Lemma pack_band_values q enabled frequency gain :
  mapM (Py.getitem
          ({[ "q" := q; "enabled" := enabled;
              "frequency" := frequency; "gain" := gain ]}%string
             : gmap string spec_float))
       BAND_FIELD_ORDER
  = Ok [q; enabled; frequency; gain].
Proof. vm_compute. reflexivity. Qed.

Lemma pack_band_spec q enabled frequency gain :
  pack_band q enabled frequency gain =
  if fits_single q && fits_single enabled
     && fits_single frequency && fits_single gain
  then Ok (f32le q ++ f32le enabled ++ f32le frequency ++ f32le gain)
  else Raise too_large.
Proof.
  unfold pack_band. rewrite pack_band_values. cbn [mbind result_bind].
  change (Struct.pack "<ffff" (Struct.AFloat <$> [q; enabled; frequency; gain]))
    with (a ← Struct.pack_f q;
          bs ← (b ← Struct.pack_f enabled;
                bs ← (c ← Struct.pack_f frequency;
                      bs ← (d ← Struct.pack_f gain; Ok (d ++ []));
                      Ok (c ++ bs));
                Ok (b ++ bs));
          Ok (a ++ bs)).
  rewrite !pack_f_spec.
  destruct (fits_single q), (fits_single enabled),
    (fits_single frequency), (fits_single gain); reflexivity.
Qed.

(** ** One band *)

Lemma fits_zero : fits_single f_zero = true.
Proof. reflexivity. Qed.

Lemma fits_one : fits_single f_one = true.
Proof. reflexivity. Qed.

Lemma fits_enabled band : fits_single (enabled_float band) = true.
Proof. unfold enabled_float. by destruct (Py.is_False _). Qed.

Lemma band_record_Ok band rec :
  band_record band = Ok rec →
  ∃ q fv frequency gain,
    Py.float (Py.dict_get band "q" (PyFloat DEFAULT_Q)) = Ok q
    ∧ band !! "frequency"%string = Some fv
    ∧ Py.float fv = Ok frequency
    ∧ Py.float (Py.dict_get band "gain" (PyFloat f_zero)) = Ok gain
    ∧ fits_single q = true ∧ fits_single frequency = true
    ∧ fits_single gain = true
    ∧ rec = f32le q ++ f32le (enabled_float band)
              ++ f32le frequency ++ f32le gain.
Proof.
  unfold band_record, Py.getitem. intros H.
  apply bind_Ok_inv in H as (q & Hq & H).
  destruct (band !! "frequency"%string) as [fv|] eqn:Hfv; [|discriminate].
  cbn [mbind result_bind] in H.
  apply bind_Ok_inv in H as (f & Hf & H).
  apply bind_Ok_inv in H as (g & Hg & H).
  rewrite pack_band_spec in H. fold (enabled_float band) in H.
  rewrite fits_enabled in H.
  destruct (fits_single q) eqn:Fq, (fits_single f) eqn:Ff,
    (fits_single g) eqn:Fg; try discriminate.
  exists q, fv, f, g. repeat split; try done. cbn [andb] in H. congruence.
Qed.

Lemma band_record_length band rec :
  band_record band = Ok rec → length rec = 16.
Proof.
  intros (q & fv & f & g & _ & _ & _ & _ & _ & _ & _ & ->)%band_record_Ok.
  reflexivity.
Qed.

Lemma band_record_ok band : is_ok (band_record band) = band_ok band.
Proof.
  unfold band_record, band_ok, packable, Py.getitem.
  destruct (Py.float (Py.dict_get band "q" _)) as [q|]; [|done].
  destruct (band !! "frequency"%string) as [fv|];
    [|by rewrite andb_false_r].
  cbn [mbind result_bind].
  destruct (Py.float fv) as [f|]; [|by rewrite andb_false_r].
  destruct (Py.float (Py.dict_get band "gain" _)) as [g|];
    [|by rewrite andb_false_r].
  cbn [mbind result_bind]. rewrite pack_band_spec.
  fold (enabled_float band). rewrite fits_enabled.
  by destruct (fits_single q), (fits_single f), (fits_single g).
Qed.

(** A band without a frequency raises KeyError, once its Q converted. *)
Lemma band_record_no_frequency band :
  band !! "frequency"%string = None →
  is_ok (Py.float (Py.dict_get band "q" (PyFloat DEFAULT_Q))) = true →
  band_record band = Raise (KeyError "frequency").
Proof.
  intros Hf Hq. unfold band_record, Py.getitem. rewrite Hf.
  by destruct (Py.float (Py.dict_get band "q" _)).
Qed.

(** A frequency that [float] refuses raises the exception of [float],
    once the Q of the band converted. *)
Lemma band_record_bad_frequency band fv e :
  band !! "frequency"%string = Some fv → Py.float fv = Raise e →
  is_ok (Py.float (Py.dict_get band "q" (PyFloat DEFAULT_Q))) = true →
  band_record band = Raise e.
Proof.
  intros Hf He Hq. unfold band_record, Py.getitem. rewrite Hf.
  destruct (Py.float (Py.dict_get band "q" _)); [|done].
  cbn [mbind result_bind]. by rewrite He.
Qed.

Lemma band_ok_frequency band :
  band_ok band = true → frequency_convertible band = true.
Proof.
  unfold band_ok, frequency_convertible, packable.
  destruct (band !! "frequency"%string) as [fv|];
    [|by rewrite andb_false_r].
  destruct (Py.float fv); [done|by rewrite andb_false_r].
Qed.

(** ** The loop *)

Lemma pack_bands_raise bands : ∀ acc i j e,
  first_error bands i = Some (j, e) → pack_bands bands acc = Raise e.
Proof.
  induction bands as [|band rest IH]; intros acc i j e H; [done|].
  simpl in *. destruct (band_record band) as [rec|e'].
  - cbn [mbind result_bind]. eauto.
  - by injection H as _ ->.
Qed.

Lemma pack_bands_return bands : ∀ acc i,
  first_error bands i = None →
  ∃ recs, Forall2 (λ band rec, band_record band = Ok rec) bands recs
          ∧ pack_bands bands acc = Ok (acc ++ concat recs).
Proof.
  induction bands as [|band rest IH]; intros acc i H.
  - exists []. split; [constructor|]. simpl. by rewrite app_nil_r.
  - simpl in *. destruct (band_record band) as [rec|e'] eqn:Hrec; [|done].
    destruct (IH (acc ++ rec) _ H) as (recs & Hall & Hp).
    exists (rec :: recs). split; [by constructor|].
    cbn [mbind result_bind]. rewrite Hp. simpl. by rewrite app_assoc.
Qed.

Lemma first_error_None bands : ∀ i,
  first_error bands i = None ↔ forallb band_ok bands = true.
Proof.
  induction bands as [|band rest IH]; intros i; simpl; [done|].
  rewrite <- band_record_ok.
  destruct (band_record band); simpl; [apply IH | done].
Qed.

(** The reported band is the first that fails: it lies at position
    [j - i], it raises [e], and the bands before it pack. *)
Lemma first_error_Some bands : ∀ i j e,
  first_error bands i = Some (j, e) →
  i ≤ j
  ∧ (∃ band, bands !! (j - i) = Some band ∧ band_record band = Raise e)
  ∧ forallb band_ok (take (j - i) bands) = true.
Proof.
  induction bands as [|band rest IH]; intros i j e H; [done|].
  simpl in H. destruct (band_record band) as [rec|e'] eqn:Hrec.
  - apply IH in H as (Hle & (b & Hb & He) & Hpre).
    replace (j - i) with (S (j - S i)) by lia.
    split; [lia|]. split; [by exists b|].
    simpl. by rewrite <- band_record_ok, Hrec.
  - injection H as -> ->. rewrite Nat.sub_diag.
    split; [lia|]. split; [by exists band | done].
Qed.

Lemma Forall2_records_length bands recs :
  Forall2 (λ band rec, band_record band = Ok rec) bands recs →
  Forall (λ rec : list byte, length rec = 16) recs.
Proof.
  induction 1 as [|band rec ? ? Hrec _ IH]; constructor; [|done].
  by eapply band_record_length.
Qed.

(** ** The whole preset *)

Lemma assemble_raise bands j e :
  first_error bands 0 = Some (j, e) → assemble bands = Raise e.
Proof.
  intros H. unfold assemble. by rewrite (pack_bands_raise _ _ _ _ _ H).
Qed.

Lemma assemble_return bands :
  forallb band_ok bands = true →
  ∃ recs, Forall2 (λ band rec, band_record band = Ok rec) bands recs
          ∧ assemble bands = Ok (HEADER ++ concat recs ++ FOOTER)
          ∧ length (HEADER ++ concat recs ++ FOOTER)
            = 112 + 16 * length bands.
Proof.
  intros H. apply (first_error_None _ 0) in H.
  destruct (pack_bands_return bands [] 0 H) as (recs & Hall & Hp).
  exists recs. split; [done|]. unfold assemble. rewrite Hp. split; [done|].
  rewrite !length_app, HEADER_length, FOOTER_length.
  rewrite (concat_length_const 16) by by eapply Forall2_records_length.
  rewrite <- (Forall2_length _ _ _ Hall). lia.
Qed.

Lemma build_preset_raise bands j e :
  first_error bands 0 = Some (j, e) → build_preset bands = Raise e.
Proof.
  intros H. unfold build_preset. by rewrite (assemble_raise _ _ _ H).
Qed.

Lemma build_preset_Ok bands out :
  build_preset bands = Ok out →
  length bands = 8
  ∧ ∃ recs, Forall2 (λ band rec, band_record band = Ok rec) bands recs
            ∧ out = HEADER ++ concat recs ++ FOOTER.
Proof.
  intros H. destruct (first_error bands 0) as [[j e]|] eqn:Hfe.
  - by rewrite (build_preset_raise _ _ _ Hfe) in H.
  - apply first_error_None in Hfe.
    destruct (assemble_return _ Hfe) as (recs & Hall & Ha & Hlen).
    unfold build_preset in H. rewrite Ha in H. cbn [mbind result_bind] in H.
    rewrite Hlen in H.
    destruct (112 + 16 * length bands =? 240) eqn:E; [|discriminate].
    apply Nat.eqb_eq in E. split; [lia|]. exists recs. split; [done|].
    congruence.
Qed.

Lemma build_preset_wrong_size bands :
  forallb band_ok bands = true → length bands ≠ 8 →
  build_preset bands
  = Raise (AssertionError (size_mismatch (112 + 16 * length bands))).
Proof.
  intros Hok Hn.
  destruct (assemble_return _ Hok) as (recs & _ & Ha & Hlen).
  unfold build_preset. rewrite Ha. cbn [mbind result_bind]. rewrite Hlen.
  destruct (112 + 16 * length bands =? 240) eqn:E; [|done].
  apply Nat.eqb_eq in E. lia.
Qed.

(** Where the parts of a returned preset lie. *)
Lemma build_preset_parts bands out :
  build_preset bands = Ok out →
  Bytes.slice 0 24 out = HEADER
  ∧ Bytes.slice 152 240 out = FOOTER
  ∧ ∀ i band, bands !! i = Some band →
      band_record band = Ok (Bytes.slice (24 + 16 * i) (40 + 16 * i) out).
Proof.
  intros (Hn & recs & Hall & ->)%build_preset_Ok.
  pose proof (Forall2_records_length _ _ Hall) as H16.
  pose proof (concat_length_const 16 _ H16) as Hc.
  rewrite <- (Forall2_length _ _ _ Hall), Hn in Hc.
  unfold Bytes.slice. split; [|split].
  - rewrite drop_0. by rewrite take_app_length'.
  - rewrite drop_app_ge by (rewrite HEADER_length; lia).
    rewrite HEADER_length, drop_app_length' by (rewrite Hc; lia).
    by rewrite take_ge by (rewrite FOOTER_length; lia).
  - intros i band Hi.
    destruct (Forall2_lookup_l _ _ _ _ _ Hall Hi) as (rec & Hrec & Hb).
    rewrite Hb. f_equal.
    replace (24 + 16 * i) with (length HEADER + 16 * i)
      by (rewrite HEADER_length; lia).
    rewrite <- drop_drop, drop_app_length.
    replace (40 + 16 * i - (length HEADER + 16 * i)) with 16
      by (rewrite HEADER_length; lia).
    symmetry. by apply chunk_at.
Qed.

(** ** The sample inputs run *)

Lemma scenario_builds : build_preset scenario = Ok scenario_preset.
Proof. vm_compute. reflexivity. Qed.

Lemma scenario_preset_length : length scenario_preset = 240.
Proof. reflexivity. Qed.

Lemma bare_builds : build_preset (replicate 8 bare_band) = Ok bare_preset.
Proof. vm_compute. reflexivity. Qed.

Lemma ordered_builds :
  build_preset (replicate 8 ordered_band) = Ok ordered_preset.
Proof. vm_compute. reflexivity. Qed.

(** ** The properties of the specification *)

(** C1 (as amended): a list of exactly 8 bands, in each of which the
    frequency is present and Q, frequency and gain (or their defaults)
    convert to floats that fit the 4-byte format, yields exactly 240
    bytes. *)
Theorem build_preset_240 bands :
  length bands = 8 → forallb band_ok bands = true →
  ∃ out, build_preset bands = Ok out ∧ length out = 240.
Proof.
  intros Hn Hok.
  destruct (assemble_return _ Hok) as (recs & _ & Ha & Hlen).
  exists (HEADER ++ concat recs ++ FOOTER).
  unfold build_preset. rewrite Ha. cbn [mbind result_bind].
  rewrite Hlen, Hn. done.
Qed.

Lemma build_preset_240_witness :
  length scenario = 8 ∧ forallb band_ok scenario = true
  ∧ ∃ out, build_preset scenario = Ok out ∧ length out = 240.
Proof.
  split; [reflexivity|]. split; [vm_compute; reflexivity|].
  apply (build_preset_240 scenario); vm_compute; reflexivity.
Defined.

(** C1 (as stated) fails: eight bands whose frequency is the double 1e39
    all have a convertible frequency, and the encoder raises
    OverflowError instead of returning bytes. *)
Lemma convertible_frequency_overflows :
  length (replicate 8 huge_band) = 8
  ∧ forallb frequency_convertible (replicate 8 huge_band) = true
  ∧ build_preset (replicate 8 huge_band) = Raise too_large
  ∧ ¬ ∃ out, build_preset (replicate 8 huge_band) = Ok out
             ∧ length out = 240.
Proof.
  assert (H : build_preset (replicate 8 huge_band) = Raise too_large)
    by (vm_compute; reflexivity).
  repeat split; try (vm_compute; reflexivity).
  intros (out & Hout & _). rewrite H in Hout. discriminate.
Qed.

(** C3: every returned preset starts with the little-endian 32-bit
    integers 240, 1 and 52, the 8 bytes GAMETSPP at offset 12, and the
    little-endian 32-bit integer 236 at offset 20. *)
Theorem header_fields bands out :
  build_preset bands = Ok out →
  Struct.unpack_I (Bytes.slice 0 4 out) = 240%Z
  ∧ Struct.unpack_I (Bytes.slice 4 8 out) = 1%Z
  ∧ Struct.unpack_I (Bytes.slice 8 12 out) = 52%Z
  ∧ Bytes.slice 12 20 out = Bytes.of_string "GAMETSPP"
  ∧ Struct.unpack_I (Bytes.slice 20 24 out) = 236%Z.
Proof.
  intros (_ & recs & _ & ->)%build_preset_Ok.
  repeat split; reflexivity.
Qed.

Lemma header_fields_witness :
  build_preset scenario = Ok scenario_preset
    ∧ Struct.unpack_I (Bytes.slice 0 4 scenario_preset) = 240%Z
    ∧ Struct.unpack_I (Bytes.slice 4 8 scenario_preset) = 1%Z
    ∧ Struct.unpack_I (Bytes.slice 8 12 scenario_preset) = 52%Z
    ∧ Bytes.slice 12 20 scenario_preset = Bytes.of_string "GAMETSPP"
    ∧ Struct.unpack_I (Bytes.slice 20 24 scenario_preset) = 236%Z.
Proof.
  split; [apply scenario_builds|].
  apply (header_fields scenario). apply scenario_builds.
Defined.

(** C4 (as amended): the header (three 32-bit integers, the 8-byte magic,
    one more 32-bit integer) takes exactly 24 bytes, and a returned preset
    is Header (24 bytes), 8 band records (128 bytes), Footer (88 bytes). *)
Theorem preset_decomposition bands out :
  build_preset bands = Ok out →
  ∃ records,
    out = HEADER ++ records ++ FOOTER
    ∧ length HEADER = 4 + 4 + 4 + 8 + 4
    ∧ length HEADER = 24 ∧ length records = 128 ∧ length FOOTER = 88
    ∧ ∃ recs, records = concat recs ∧ length recs = 8
              ∧ Forall (λ rec : list byte, length rec = 16) recs.
Proof.
  intros (Hn & recs & Hall & ->)%build_preset_Ok.
  pose proof (Forall2_records_length _ _ Hall) as H16.
  exists (concat recs). repeat split.
  - rewrite (concat_length_const 16) by done.
    rewrite <- (Forall2_length _ _ _ Hall). lia.
  - exists recs. by rewrite <- (Forall2_length _ _ _ Hall).
Qed.

Lemma preset_decomposition_witness :
  build_preset scenario = Ok scenario_preset ∧
  ∃ records,
    scenario_preset = HEADER ++ records ++ FOOTER
    ∧ length HEADER = 4 + 4 + 4 + 8 + 4
    ∧ length HEADER = 24 ∧ length records = 128 ∧ length FOOTER = 88
    ∧ ∃ recs, records = concat recs ∧ length recs = 8
              ∧ Forall (λ rec : list byte, length rec = 16) recs.
Proof.
  split; [apply scenario_builds|].
  apply (preset_decomposition scenario). apply scenario_builds.
Defined.

(** C4 (as stated) fails: the header is not 20 bytes long, and the preset
    returned for the sample input is no 20 + 128 + 88 byte sequence. *)
Lemma header_is_not_20_bytes :
  length HEADER ≠ 20
  ∧ ∃ out, build_preset scenario = Ok out
      ∧ ¬ ∃ header records footer,
            out = header ++ records ++ footer
            ∧ length header = 20 ∧ length records = 128
            ∧ length footer = 88.
Proof.
  split; [by rewrite HEADER_length|].
  exists scenario_preset. split; [apply scenario_builds|].
  intros (h & r & f & Hout & Hh & Hr & Hf).
  pose proof scenario_preset_length as Hlen.
  rewrite Hout, !length_app in Hlen. lia.
Qed.

(** C7: the bytes at offsets 152 to 239 of any two returned presets are
    the same, whatever the inputs: they are the constant FOOTER. *)
Theorem footer_input_independent bands1 bands2 out1 out2 :
  build_preset bands1 = Ok out1 → build_preset bands2 = Ok out2 →
  Bytes.slice 152 240 out1 = Bytes.slice 152 240 out2
  ∧ Bytes.slice 152 240 out1 = FOOTER
  ∧ length FOOTER = 88.
Proof.
  intros (_ & H1 & _)%build_preset_parts (_ & H2 & _)%build_preset_parts.
  by rewrite H1, H2.
Qed.

Lemma footer_input_independent_witness :
  build_preset scenario = Ok scenario_preset
  ∧ build_preset (replicate 8 bare_band) = Ok bare_preset
  ∧ Bytes.slice 152 240 scenario_preset = Bytes.slice 152 240 bare_preset
  ∧ Bytes.slice 152 240 scenario_preset = FOOTER
  ∧ length FOOTER = 88.
Proof.
  split; [apply scenario_builds|]. split; [apply bare_builds|].
  apply (footer_input_independent scenario (replicate 8 bare_band));
    [apply scenario_builds | apply bare_builds].
Defined.

(** ** The band records of a returned preset *)

Lemma record_at_spec bands out i band :
  build_preset bands = Ok out → bands !! i = Some band →
  i ≤ 7
  ∧ ∃ q fv frequency gain,
      Py.float (Py.dict_get band "q" (PyFloat DEFAULT_Q)) = Ok q
      ∧ band !! "frequency"%string = Some fv
      ∧ Py.float fv = Ok frequency
      ∧ Py.float (Py.dict_get band "gain" (PyFloat f_zero)) = Ok gain
      ∧ fits_single q = true ∧ fits_single frequency = true
      ∧ fits_single gain = true
      ∧ record_at i out = f32le q ++ f32le (enabled_float band)
                            ++ f32le frequency ++ f32le gain.
Proof.
  intros Hout Hi. split.
  - apply build_preset_Ok in Hout as (Hn & _).
    apply lookup_lt_Some in Hi. lia.
  - apply build_preset_parts in Hout as (_ & _ & Hrec).
    apply band_record_Ok. unfold record_at. by apply Hrec.
Qed.

Lemma fields_of_record q enabled frequency gain :
  let rec := f32le q ++ f32le enabled ++ f32le frequency ++ f32le gain in
  length rec = 16
  ∧ field 0 rec = f32le q ∧ field 1 rec = f32le enabled
  ∧ field 2 rec = f32le frequency ∧ field 3 rec = f32le gain.
Proof. repeat split; reflexivity. Qed.

Lemma enabled_float_False band :
  band !! "enabled"%string = Some (PyBool false) →
  enabled_float band = f_zero.
Proof. intros H. unfold enabled_float, Py.dict_get. by rewrite H. Qed.

Lemma enabled_float_other band :
  band !! "enabled"%string ≠ Some (PyBool false) →
  enabled_float band = f_one.
Proof.
  intros H. unfold enabled_float, Py.dict_get.
  destruct (band !! "enabled"%string) as [[| [|] | | | | |]|]; done.
Qed.

Lemma enabled_float_cases band :
  enabled_float band = f_zero ∨ enabled_float band = f_one.
Proof. unfold enabled_float. destruct (Py.is_False _); auto. Qed.

(** C2: in a returned preset the 16 bytes at offset 24 + 16*i are the
    four little-endian binary32 encodings of Q, enabled-as-float,
    frequency and gain of band i, in this order; for Q = 1.0,
    frequency = 2.0 and gain = 3.0 the record decodes to
    [1.0, (0.0 or 1.0), 2.0, 3.0]. *)
Theorem record_field_order bands out i band :
  build_preset bands = Ok out → bands !! i = Some band →
  i ≤ 7
  ∧ ∃ q fv frequency gain,
      Py.float (Py.dict_get band "q" (PyFloat DEFAULT_Q)) = Ok q
      ∧ band !! "frequency"%string = Some fv
      ∧ Py.float fv = Ok frequency
      ∧ Py.float (Py.dict_get band "gain" (PyFloat f_zero)) = Ok gain
      ∧ length (record_at i out) = 16
      ∧ Struct.pack_f q = Ok (field 0 (record_at i out))
      ∧ Struct.pack_f (enabled_float band) = Ok (field 1 (record_at i out))
      ∧ Struct.pack_f frequency = Ok (field 2 (record_at i out))
      ∧ Struct.pack_f gain = Ok (field 3 (record_at i out))
      ∧ (enabled_float band = Py.literal "0.0"
         ∨ enabled_float band = Py.literal "1.0")
      ∧ (q = Py.literal "1.0" → frequency = Py.literal "2.0" →
         gain = Py.literal "3.0" →
         Struct.unpack_f <$> [ field 0 (record_at i out)
                             ; field 1 (record_at i out)
                             ; field 2 (record_at i out)
                             ; field 3 (record_at i out) ]
         = [ Py.literal "1.0"; enabled_float band
           ; Py.literal "2.0"; Py.literal "3.0" ]).
Proof.
  intros Hout Hi.
  destruct (record_at_spec _ _ _ _ Hout Hi)
    as (Hle & q & fv & f & g & Hq & Hfv & Hf & Hg & Fq & Ff & Fg & ->).
  split; [done|]. exists q, fv, f, g.
  destruct (fields_of_record q (enabled_float band) f g)
    as (Hlen & -> & -> & -> & ->).
  rewrite !pack_f_spec, Fq, Ff, Fg, fits_enabled.
  repeat split; try done.
  - apply enabled_float_cases.
  - intros -> -> ->.
    destruct (enabled_float_cases band) as [-> | ->]; reflexivity.
Qed.

Lemma record_field_order_witness :
  build_preset (replicate 8 ordered_band) = Ok ordered_preset
  ∧ Struct.unpack_f <$> [ field 0 (record_at 3 ordered_preset)
                        ; field 1 (record_at 3 ordered_preset)
                        ; field 2 (record_at 3 ordered_preset)
                        ; field 3 (record_at 3 ordered_preset) ]
    = [ Py.literal "1.0"; Py.literal "1.0"
      ; Py.literal "2.0"; Py.literal "3.0" ].
Proof.
  split; [apply ordered_builds|].
  destruct (record_field_order (replicate 8 ordered_band) ordered_preset
              3 ordered_band ordered_builds eq_refl)
    as (_ & q & fv & f & g & Hq & Hfv & Hf & Hg & _ & _ & _ & _ & _ & _ & H).
  vm_compute in Hq. injection Hq as <-.
  vm_compute in Hfv. injection Hfv as <-.
  vm_compute in Hf. injection Hf as <-.
  vm_compute in Hg. injection Hg as <-.
  exact (H eq_refl eq_refl eq_refl).
Defined.

(** C5: the second float of the record of a band is 0.0 exactly when
    the enabled entry of the band is the literal [False], and 1.0 in
    every other case (true, absent, or any other value). *)
Theorem enabled_field bands out i band :
  build_preset bands = Ok out → bands !! i = Some band →
  (band !! "enabled"%string = Some (PyBool false) →
     field 1 (record_at i out) = [x00; x00; x00; x00]
     ∧ Struct.unpack_f (field 1 (record_at i out)) = Py.literal "0.0")
  ∧ (band !! "enabled"%string ≠ Some (PyBool false) →
     field 1 (record_at i out) = [x00; x00; x80; x3f]
     ∧ Struct.unpack_f (field 1 (record_at i out)) = Py.literal "1.0").
Proof.
  intros Hout Hi.
  destruct (record_at_spec _ _ _ _ Hout Hi)
    as (_ & q & fv & f & g & _ & _ & _ & _ & _ & _ & _ & ->).
  destruct (fields_of_record q (enabled_float band) f g)
    as (_ & _ & -> & _ & _).
  split; intros H.
  - rewrite (enabled_float_False _ H). split; reflexivity.
  - rewrite (enabled_float_other _ H). split; reflexivity.
Qed.

(** C6: where the band has no q entry the first float of its record is
    0.71 (the binary32 nearest to it), and where it has no gain entry
    the fourth float is 0.0. *)
Theorem default_q_and_gain bands out i band :
  build_preset bands = Ok out → bands !! i = Some band →
  (band !! "q"%string = None →
     Struct.pack_f DEFAULT_Q = Ok (field 0 (record_at i out))
     ∧ field 0 (record_at i out) = [x8f; xc2; x35; x3f]
     ∧ Struct.unpack_f (field 0 (record_at i out))
       = IEEE.to_double (IEEE.of_decimal 24 128 false 71 (-2)))
  ∧ (band !! "gain"%string = None →
     Struct.pack_f (Py.literal "0.0") = Ok (field 3 (record_at i out))
     ∧ field 3 (record_at i out) = [x00; x00; x00; x00]
     ∧ Struct.unpack_f (field 3 (record_at i out)) = Py.literal "0.0").
Proof.
  intros Hout Hi.
  destruct (record_at_spec _ _ _ _ Hout Hi)
    as (_ & q & fv & f & g & Hq & _ & _ & Hg & _ & _ & _ & ->).
  destruct (fields_of_record q (enabled_float band) f g)
    as (_ & -> & _ & _ & ->).
  unfold Py.dict_get in Hq, Hg. split; intros H; rewrite H in *.
  - injection Hq as <-. repeat split; reflexivity.
  - injection Hg as <-. repeat split; reflexivity.
Qed.

Lemma enabled_field_witness :
  build_preset scenario = Ok scenario_preset
  ∧ (field 1 (record_at 7 scenario_preset) = [x00; x00; x00; x00]
     ∧ Struct.unpack_f (field 1 (record_at 7 scenario_preset))
       = Py.literal "0.0")
  ∧ (field 1 (record_at 0 scenario_preset) = [x00; x00; x80; x3f]
     ∧ Struct.unpack_f (field 1 (record_at 0 scenario_preset))
       = Py.literal "1.0").
Proof.
  split; [apply scenario_builds|]. split.
  - refine (proj1 (enabled_field scenario scenario_preset 7 _
                     scenario_builds eq_refl) _).
    vm_compute. reflexivity.
  - refine (proj2 (enabled_field scenario scenario_preset 0 _
                     scenario_builds eq_refl) _).
    intros H. vm_compute in H. discriminate H.
Defined.

Lemma default_q_and_gain_witness :
  build_preset (replicate 8 bare_band) = Ok bare_preset
  ∧ (Struct.pack_f DEFAULT_Q = Ok (field 0 (record_at 2 bare_preset))
     ∧ field 0 (record_at 2 bare_preset) = [x8f; xc2; x35; x3f]
     ∧ Struct.unpack_f (field 0 (record_at 2 bare_preset))
       = IEEE.to_double (IEEE.of_decimal 24 128 false 71 (-2)))
  ∧ (Struct.pack_f (Py.literal "0.0")
       = Ok (field 3 (record_at 2 bare_preset))
     ∧ field 3 (record_at 2 bare_preset) = [x00; x00; x00; x00]
     ∧ Struct.unpack_f (field 3 (record_at 2 bare_preset))
       = Py.literal "0.0").
Proof.
  split; [apply bare_builds|]. split.
  - refine (proj1 (default_q_and_gain (replicate 8 bare_band) bare_preset
                     2 bare_band bare_builds eq_refl) _).
    vm_compute. reflexivity.
  - refine (proj2 (default_q_and_gain (replicate 8 bare_band) bare_preset
                     2 bare_band bare_builds eq_refl) _).
    vm_compute. reflexivity.
Defined.

(** The binary32 value nearest to 0.71, read back as a double, is
    0.7099999785423279: the field holds 0.71 to single precision, which
    is not the double [DEFAULT_Q] itself. *)
Lemma default_q_single_precision :
  Struct.unpack_f [x8f; xc2; x35; x3f] = Py.literal "0.7099999785423279"
  ∧ Struct.unpack_f [x8f; xc2; x35; x3f] ≠ DEFAULT_Q.
Proof. split; [reflexivity|]. vm_compute. discriminate. Qed.

(** The sample run: the first record decodes to
    [0.71 (single precision), 1.0, 100.0, 0.0], the eighth to
    [0.71 (single precision), 0.0, 8000.0, -3.0]. *)
Lemma scenario_records :
  Struct.unpack_f <$> [ field 0 (record_at 0 scenario_preset)
                      ; field 1 (record_at 0 scenario_preset)
                      ; field 2 (record_at 0 scenario_preset)
                      ; field 3 (record_at 0 scenario_preset) ]
  = [ Py.literal "0.7099999785423279"; Py.literal "1.0"
    ; Py.literal "100.0"; Py.literal "0.0" ]
  ∧ Struct.unpack_f <$> [ field 0 (record_at 7 scenario_preset)
                        ; field 1 (record_at 7 scenario_preset)
                        ; field 2 (record_at 7 scenario_preset)
                        ; field 3 (record_at 7 scenario_preset) ]
    = [ Py.literal "0.7099999785423279"; Py.literal "0.0"
      ; Py.literal "8000.0"; Py.literal "-3.0" ].
Proof. split; vm_compute; reflexivity. Qed.

(** [0 is False] does not hold: a band with [enabled: 0] is enabled. *)
Lemma enabled_zero_is_enabled :
  enabled_float ({[ "frequency" := PyInt 100;
                    "enabled" := PyInt 0 ]}%string : gmap string PyVal)
  = Py.literal "1.0".
Proof. vm_compute. reflexivity. Qed.

(** ** Rejected inputs *)

Lemma first_error_of_failing_band bands i band :
  bands !! i = Some band → band_ok band = false →
  ∃ j e first,
    first_error bands 0 = Some (j, e) ∧ j ≤ i
    ∧ bands !! j = Some first ∧ band_record first = Raise e
    ∧ forallb band_ok (take j bands) = true.
Proof.
  intros Hi Hbad.
  destruct (first_error bands 0) as [[j e]|] eqn:Hfe.
  - destruct (first_error_Some _ _ _ _ Hfe) as (_ & (b & Hb & He) & Hpre).
    rewrite Nat.sub_0_r in Hb, Hpre.
    exists j, e, b. repeat split; try done.
    destruct (decide (j ≤ i)) as [|Hgt]; [done|exfalso].
    rewrite forallb_forall in Hpre.
    assert (Hin : In band (take j bands)).
    { apply list_elem_of_In, list_elem_of_lookup. exists i.
      rewrite lookup_take_lt by lia. done. }
    apply Hpre in Hin. congruence.
  - apply first_error_None in Hfe. rewrite forallb_forall in Hfe.
    assert (Hin : In band bands).
    { apply list_elem_of_In, list_elem_of_lookup. by exists i. }
    apply Hfe in Hin. congruence.
Qed.

Lemma not_convertible_not_ok band :
  frequency_convertible band = false → band_ok band = false.
Proof.
  intros H. destruct (band_ok band) eqn:E; [|done].
  apply band_ok_frequency in E. congruence.
Qed.

(** C8 (as amended): a band list whose length is not 8 is always
    rejected, and no bytes are returned: with the AssertionError of the
    final size check when every band packs, and otherwise (the strings
    among Q, frequency and gain being ASCII text) with the exception of
    the first band that fails. *)
Theorem wrong_length_rejected bands :
  length bands ≠ 8 →
  ∃ e, build_preset bands = Raise e
    ∧ (forallb band_ok bands = true →
       e = AssertionError (size_mismatch (112 + 16 * length bands)))
    ∧ (forallb ascii_band bands = true → forallb band_ok bands = false →
       ∃ j first, first_error bands 0 = Some (j, e)
         ∧ bands !! j = Some first ∧ band_record first = Raise e).
Proof.
  intros Hn. destruct (forallb band_ok bands) eqn:Hok.
  - eexists. split; [by apply build_preset_wrong_size|]. by split.
  - destruct (first_error bands 0) as [[j e]|] eqn:Hfe.
    + exists e. split; [by eapply build_preset_raise|].
      split; [done|]. intros _ _.
      destruct (first_error_Some _ _ _ _ Hfe) as (_ & (b & Hb & He) & _).
      rewrite Nat.sub_0_r in Hb. by exists j, b.
    + apply first_error_None in Hfe. congruence.
Qed.

Lemma wrong_length_rejected_witness :
  length (take 7 scenario) ≠ 8
  ∧ build_preset (take 7 scenario)
    = Raise (AssertionError "Preset size mismatch: 224 != 240")
  ∧ length [empty_band] ≠ 8
  ∧ forallb ascii_band [empty_band] = true
  ∧ forallb band_ok [empty_band] = false
  ∧ first_error [empty_band] 0 = Some (0, KeyError "frequency").
Proof.
  assert (H : length (take 7 scenario) ≠ 8) by (vm_compute; lia).
  assert (H1 : length [empty_band] ≠ 8) by (vm_compute; lia).
  split; [exact H|]. split.
  - destruct (wrong_length_rejected (take 7 scenario) H)
      as (e & He & Hok & _).
    rewrite He. f_equal. apply Hok. vm_compute. reflexivity.
  - split; [exact H1|]. split; [reflexivity|]. split; [reflexivity|].
    destruct (wrong_length_rejected [empty_band] H1)
      as (e & He & _ & Hloop).
    destruct (Hloop eq_refl eq_refl) as (j & first & Hfe & _ & _).
    vm_compute in He. injection He as <-.
    vm_compute in Hfe. injection Hfe as <-. vm_compute. reflexivity.
Defined.

(** C8 (as stated) fails: for the one-element list [[{}]] the encoder
    raises KeyError('frequency') from the loop, not the error of a length
    check. *)
Lemma short_list_raises_KeyError :
  length [empty_band] ≠ 8
  ∧ build_preset [empty_band] = Raise (KeyError "frequency")
  ∧ ¬ ∃ msg, build_preset [empty_band] = Raise (AssertionError msg).
Proof.
  assert (H : build_preset [empty_band] = Raise (KeyError "frequency"))
    by (vm_compute; reflexivity).
  split; [simpl; lia|]. split; [exact H|].
  intros (msg & Hmsg). rewrite H in Hmsg. discriminate.
Qed.

(** C9 (as amended): a band list (the strings among Q, frequency and
    gain being ASCII text) with a band whose frequency is absent or not
    convertible is rejected and no bytes are returned; the exception is
    the one of the first band that fails, at or before the offending
    one: KeyError('frequency') where the frequency is absent, the
    exception of [float] where it does not convert (once the Q of that
    band converted). *)
Theorem bad_frequency_rejected bands i band :
  forallb ascii_band bands = true →
  bands !! i = Some band → frequency_convertible band = false →
  ∃ j e first,
    build_preset bands = Raise e
    ∧ first_error bands 0 = Some (j, e) ∧ j ≤ i
    ∧ bands !! j = Some first ∧ band_record first = Raise e
    ∧ (is_ok (Py.float (Py.dict_get first "q" (PyFloat DEFAULT_Q))) = true →
       (first !! "frequency"%string = None → e = KeyError "frequency")
       ∧ (∀ fv e', first !! "frequency"%string = Some fv →
                   Py.float fv = Raise e' → e = e')).
Proof.
  intros _ Hi Hbad. apply not_convertible_not_ok in Hbad.
  destruct (first_error_of_failing_band _ _ _ Hi Hbad)
    as (j & e & first & Hfe & Hle & Hj & He & _).
  exists j, e, first. split; [by eapply build_preset_raise|].
  repeat split; try done.
  - intros Hnone. rewrite (band_record_no_frequency _ Hnone H) in He.
    congruence.
  - intros fv e' Hfv He'.
    rewrite (band_record_bad_frequency _ _ _ Hfv He' H) in He. congruence.
Qed.

Lemma bad_frequency_rejected_witness :
  forallb ascii_band (replicate 7 bare_band ++ [empty_band]) = true
  ∧ build_preset (replicate 7 bare_band ++ [empty_band])
    = Raise (KeyError "frequency").
Proof.
  split; [reflexivity|].
  destruct (bad_frequency_rejected (replicate 7 bare_band ++ [empty_band])
              7 empty_band eq_refl eq_refl eq_refl)
    as (j & e & first & -> & Hfe & _ & Hj & _ & H).
  vm_compute in Hfe. injection Hfe as <- <-. reflexivity.
Defined.

(** C9 (as stated) fails: the exception identifies no band.  A missing
    frequency in band 0 and a missing frequency in band 7 raise one and
    the same KeyError('frequency'), so no reading of the exception gives
    the index of the offending band. *)
Lemma exception_identifies_no_band :
  build_preset (empty_band :: replicate 7 bare_band)
  = Raise (KeyError "frequency")
  ∧ build_preset (replicate 7 bare_band ++ [empty_band])
    = Raise (KeyError "frequency")
  ∧ ¬ ∃ index_of : PyExc → nat,
        ∀ bands,
          (∃ i band, bands !! i = Some band
                     ∧ frequency_convertible band = false) →
          ∃ e band, build_preset bands = Raise e
                    ∧ bands !! index_of e = Some band
                    ∧ frequency_convertible band = false.
Proof.
  assert (H0 : build_preset (empty_band :: replicate 7 bare_band)
               = Raise (KeyError "frequency")) by (vm_compute; reflexivity).
  assert (H7 : build_preset (replicate 7 bare_band ++ [empty_band])
               = Raise (KeyError "frequency")) by (vm_compute; reflexivity).
  split; [exact H0|]. split; [exact H7|].
  intros (index_of & Hidx).
  destruct (Hidx (empty_band :: replicate 7 bare_band))
    as (e0 & b0 & He0 & Hb0 & Hc0); [by exists 0, empty_band|].
  destruct (Hidx (replicate 7 bare_band ++ [empty_band]))
    as (e7 & b7 & He7 & Hb7 & Hc7); [by exists 7, empty_band|].
  rewrite H0 in He0. rewrite H7 in He7.
  injection He0 as <-. injection He7 as <-.
  destruct (index_of (KeyError "frequency")) as [|[|[|[|[|[|[|[|n]]]]]]]];
    simpl in Hb0, Hb7; simplify_eq; vm_compute in Hc0, Hc7; discriminate.
Qed.

(** C10 (as amended): for a band list of length n other than 8 in which
    every band packs (Q, frequency and gain convert and fit the 4-byte
    format), the encoder first assembles header, 16*n record bytes and
    footer, and only then raises AssertionError from the final size check,
    returning no bytes; and there is no length check before the loop: an
    exception raised in the loop is the exception of the call, whatever
    the length of the list (the strings among Q, frequency and gain
    being ASCII text). *)
Theorem wrong_length_fails_final_check :
  (∀ bands,
     length bands ≠ 8 → forallb band_ok bands = true →
     ∃ recs,
       Forall2 (λ band rec, band_record band = Ok rec) bands recs
       ∧ length (concat recs) = 16 * length bands
       ∧ assemble bands = Ok (HEADER ++ concat recs ++ FOOTER)
       ∧ length (HEADER ++ concat recs ++ FOOTER)
         = 24 + 16 * length bands + 88
       ∧ build_preset bands
         = Raise (AssertionError
                    (size_mismatch (24 + 16 * length bands + 88))))
  ∧ (∀ n, 24 + 16 * n + 88 = 240 ↔ n = 8)
  ∧ (∀ bands j e,
       forallb ascii_band bands = true →
       first_error bands 0 = Some (j, e) → build_preset bands = Raise e).
Proof.
  split; [|split].
  - intros bands Hn Hok.
    destruct (assemble_return _ Hok) as (recs & Hall & Ha & Hlen).
    exists recs. split; [done|]. split.
    + rewrite (concat_length_const 16) by by eapply Forall2_records_length.
      by rewrite <- (Forall2_length _ _ _ Hall).
    + split; [done|]. split; [rewrite Hlen; lia|].
      rewrite (build_preset_wrong_size _ Hok Hn). do 3 f_equal. lia.
  - intros n. lia.
  - intros bands j e _. apply build_preset_raise.
Qed.

Lemma wrong_length_fails_final_check_witness :
  length (take 7 scenario) ≠ 8
  ∧ forallb band_ok (take 7 scenario) = true
  ∧ build_preset (take 7 scenario)
    = Raise (AssertionError "Preset size mismatch: 224 != 240")
  ∧ build_preset [empty_band] = Raise (KeyError "frequency").
Proof.
  assert (Hn : length (take 7 scenario) ≠ 8) by (vm_compute; lia).
  assert (Hok : forallb band_ok (take 7 scenario) = true)
    by (vm_compute; reflexivity).
  destruct wrong_length_fails_final_check as (Hsize & _ & Hloop).
  split; [exact Hn|]. split; [exact Hok|]. split.
  - destruct (Hsize (take 7 scenario) Hn Hok) as (recs & _ & _ & _ & _ & ->).
    reflexivity.
  - apply (Hloop [empty_band] 0); vm_compute; reflexivity.
Defined.

(** C10 (as stated) fails: the one-element list [[huge_band]] has a
    convertible frequency and a length other than 8, and the encoder
    raises OverflowError while packing, not AssertionError. *)
Lemma wrong_length_overflow_first :
  length [huge_band] ≠ 8
  ∧ forallb frequency_convertible [huge_band] = true
  ∧ build_preset [huge_band] = Raise too_large
  ∧ ¬ ∃ msg, build_preset [huge_band] = Raise (AssertionError msg).
Proof.
  assert (H : build_preset [huge_band] = Raise too_large)
    by (vm_compute; reflexivity).
  split; [simpl; lia|]. split; [vm_compute; reflexivity|].
  split; [exact H|].
  intros (msg & Hmsg). rewrite H in Hmsg. discriminate.
Qed.

(** ** Further properties of the encoder *)

Lemma build_preset_Ok_packs bands out :
  build_preset bands = Ok out → forallb band_ok bands = true.
Proof.
  intros Hout. destruct (first_error bands 0) as [[j e]|] eqn:Hfe.
  - by rewrite (build_preset_raise _ _ _ Hfe) in Hout.
  - by apply first_error_None in Hfe.
Qed.

Lemma build_preset_returns bands :
  length bands = 8 → forallb band_ok bands = true →
  ∃ out, build_preset bands = Ok out.
Proof.
  intros Hn Hok.
  destruct (assemble_return _ Hok) as (recs & _ & Ha & Hlen).
  exists (HEADER ++ concat recs ++ FOOTER).
  unfold build_preset. rewrite Ha. cbn [mbind result_bind].
  by rewrite Hlen, Hn.
Qed.

Lemma build_preset_length bands out :
  build_preset bands = Ok out → length out = 240.
Proof.
  unfold build_preset. destruct (assemble bands) as [preset|]; [|done].
  cbn [mbind result_bind].
  destruct (length preset =? 240) eqn:E; [|done].
  intros [= <-]. by apply Nat.eqb_eq.
Qed.

(** X1: [build_preset] returns exactly on the lists of 8 bands that all
    pack (the strings among Q, frequency and gain being ASCII text). *)
Theorem build_preset_returns_iff bands :
  forallb ascii_band bands = true →
  (∃ out, build_preset bands = Ok out)
  ↔ length bands = 8 ∧ forallb band_ok bands = true.
Proof.
  intros _. split.
  - intros (out & Hout). split.
    + by destruct (build_preset_Ok _ _ Hout).
    + by eapply build_preset_Ok_packs.
  - intros (Hn & Hok). by apply build_preset_returns.
Qed.

Lemma build_preset_returns_iff_witness :
  forallb ascii_band scenario = true
  ∧ ((∃ out, build_preset scenario = Ok out)
     ↔ length scenario = 8 ∧ forallb band_ok scenario = true)
  ∧ build_preset scenario = Ok scenario_preset.
Proof.
  split; [reflexivity|].
  split; [exact (build_preset_returns_iff scenario eq_refl)|].
  apply scenario_builds.
Defined.

(** X2: [pack_band] returns 16 bytes when its four values fit the 4-byte
    format, and raises OverflowError otherwise; the lookups in its field
    dictionary and the format of [struct.pack] never fail. *)
Theorem pack_band_16_or_overflow q enabled frequency gain :
  let fit := fits_single q && fits_single enabled
             && fits_single frequency && fits_single gain in
  (fit = true →
   ∃ rec, pack_band q enabled frequency gain = Ok rec ∧ length rec = 16)
  ∧ (fit = false → pack_band q enabled frequency gain = Raise too_large).
Proof.
  intros fit. rewrite pack_band_spec. fold fit.
  split; intros ->; [eexists; split; [done|reflexivity] | done].
Qed.

Lemma float_raise v e :
  Py.float v = Raise e →
  (∃ tyname, e = TypeError tyname) ∨ (∃ text, e = ValueError text)
  ∨ e = OverflowError "int too large to convert to float".
Proof.
  destruct v; simpl; try discriminate.
  - intros [= <-]. left. eauto.
  - destruct (IEEE.is_inf _); [|discriminate]. intros [= <-]. auto.
  - destruct (Py.float_of_string s); [discriminate|]. intros [= <-].
    right. left. eauto.
  - intros [= <-]. left. eauto.
  - intros [= <-]. left. eauto.
Qed.

Lemma band_record_raise band e :
  band_record band = Raise e →
  e = KeyError "frequency" ∨ e = too_large
  ∨ ∃ v, Py.float v = Raise e.
Proof.
  unfold band_record, Py.getitem. intros H.
  apply bind_Raise_inv in H as [H | (q & _ & H)]; [eauto|].
  destruct (band !! "frequency"%string) as [fv|];
    cbn [mbind result_bind] in H; [|injection H as <-; auto].
  apply bind_Raise_inv in H as [H | (f & _ & H)]; [eauto|].
  apply bind_Raise_inv in H as [H | (g & _ & H)]; [eauto|].
  rewrite pack_band_spec in H.
  destruct (_ && _); [discriminate|]. injection H as <-. auto.
Qed.

(** X3: the exceptions of [build_preset].  A KeyError names the key
    frequency; an OverflowError comes from [float] of an int or from the
    4-byte format; an AssertionError is raised only when every band packed
    and the list does not have 8 bands; struct.error is never raised. *)
Theorem build_preset_exceptions bands e :
  build_preset bands = Raise e →
  match e with
  | KeyError key => key = "frequency"%string
  | TypeError _ | ValueError _ => True
  | OverflowError msg =>
      msg = "int too large to convert to float"%string
      ∨ msg = "float too large to pack with f format"%string
  | StructError _ => False
  | AssertionError msg =>
      forallb band_ok bands = true ∧ length bands ≠ 8
      ∧ msg = size_mismatch (24 + 16 * length bands + 88)
  end.
Proof.
  intros H. destruct (first_error bands 0) as [[j e']|] eqn:Hfe.
  - rewrite (build_preset_raise _ _ _ Hfe) in H. injection H as ->.
    destruct (first_error_Some _ _ _ _ Hfe) as (_ & (b & _ & He) & _).
    apply band_record_raise in He as [-> | [-> | (v & Hv)]]; [done|by right|].
    apply float_raise in Hv as [(t & ->) | [(t & ->) | ->]]; try done.
    by left.
  - apply first_error_None in Hfe.
    destruct (decide (length bands = 8)) as [Hn|Hn].
    + destruct (build_preset_returns bands) as (out & Hout); [done..|].
      congruence.
    + rewrite (build_preset_wrong_size _ Hfe Hn) in H. injection H as <-.
      repeat split; try done. f_equal. lia.
Qed.

Lemma build_preset_exceptions_witness :
  build_preset [empty_band] = Raise (KeyError "frequency")
  ∧ "frequency"%string = "frequency"%string.
Proof.
  assert (H : build_preset [empty_band] = Raise (KeyError "frequency"))
    by (vm_compute; reflexivity).
  split; [exact H|]. exact (build_preset_exceptions [empty_band] _ H).
Defined.

(** X4: the sizes declared in the header are the real ones: the file
    size field is the length of the preset, the data size field the
    number of bytes after the file size field. *)
Theorem declared_sizes bands out :
  build_preset bands = Ok out →
  Struct.unpack_I (Bytes.slice 0 4 out) = Z.of_nat (length out)
  ∧ Struct.unpack_I (Bytes.slice 20 24 out)
    = Z.of_nat (length (drop 4 out)).
Proof.
  intros Hout.
  pose proof (build_preset_length _ _ Hout) as Hlen.
  destruct (build_preset_Ok _ _ Hout) as (_ & recs & _ & Heq).
  rewrite length_drop, Hlen. subst out. split; reflexivity.
Qed.

Lemma declared_sizes_witness :
  Struct.unpack_I (Bytes.slice 0 4 scenario_preset)
  = Z.of_nat (length scenario_preset)
  ∧ Struct.unpack_I (Bytes.slice 20 24 scenario_preset)
    = Z.of_nat (length (drop 4 scenario_preset)).
Proof. exact (declared_sizes scenario scenario_preset scenario_builds). Defined.

(** X5: the encoder does not validate values: a NaN or an infinity as
    Q, frequency or gain packs like any other float (for instance
    [NaN] from a JSON file). *)
Theorem non_finite_values_pack band key x :
  key ∈ ["q"; "frequency"; "gain"]%string →
  x = S754_nan ∨ (∃ s, x = S754_infinity s) →
  band_ok band = true →
  Struct.pack_f x = Ok (f32le x)
  ∧ band_ok (<[key := PyFloat x]> band) = true.
Proof.
  intros Hkey Hx Hok.
  assert (Hfit : fits_single x = true) by by destruct Hx as [-> | [[|] ->]].
  split; [by rewrite pack_f_spec, Hfit|].
  revert Hok. unfold band_ok, Py.dict_get, packable.
  rewrite !list_elem_of_In in Hkey. simpl in Hkey.
  destruct Hkey as [<- | [<- | [<- | []]]];
    rewrite lookup_insert_eq, !lookup_insert_ne by done; simpl;
    rewrite Hfit; intros Hok.
  - apply andb_true_iff in Hok as (Hok & ->).
    apply andb_true_iff in Hok as (_ & ->). done.
  - apply andb_true_iff in Hok as (Hok & ->).
    apply andb_true_iff in Hok as (-> & _). done.
  - apply andb_true_iff in Hok as (-> & _). done.
Qed.

Lemma non_finite_values_pack_witness :
  Struct.pack_f S754_nan = Ok [x00; x00; xc0; x7f]
  ∧ band_ok (<["frequency"%string := PyFloat S754_nan]> bare_band) = true.
Proof.
  apply (non_finite_values_pack bare_band "frequency" S754_nan).
  - apply list_elem_of_In. simpl. auto.
  - by left.
  - vm_compute. reflexivity.
Defined.

(** ** [build_preset] on arbitrary values *)

Lemma pack_values_typed dicts : ∀ acc,
  pack_values (PyDict <$> dicts) acc
  = of_result (pack_bands (Dyn.dict_of <$> dicts) acc).
Proof.
  induction dicts as [|d rest IH]; intros acc; [done|].
  simpl. destruct (band_record (Dyn.dict_of d)) as [rec|e]; [|done].
  cbn [mbind outcome_bind result_bind of_result]. apply IH.
Qed.

(** On a list of dicts the dynamic call is the typed one. *)
Lemma build_preset_value_typed dicts :
  build_preset_value (PyList (PyDict <$> dicts))
  = of_result (build_preset (Dyn.dict_of <$> dicts)).
Proof.
  unfold build_preset_value, build_preset, assemble.
  cbn [Dyn.iter mbind outcome_bind]. rewrite pack_values_typed.
  destruct (pack_bands (Dyn.dict_of <$> dicts) []) as [data|e]; [|done].
  cbn [mbind outcome_bind result_bind of_result].
  by destruct (length (HEADER ++ data ++ FOOTER) =? 240).
Qed.

Lemma pack_values_Return items : ∀ acc data,
  pack_values items acc = Return data →
  ∃ dicts, items = PyDict <$> dicts.
Proof.
  induction items as [|band rest IH]; intros acc data H.
  - by exists [].
  - simpl in H. destruct band; try discriminate.
    cbn [as_band mbind outcome_bind] in H.
    destruct (of_result (band_record _)) as [rec|e]; [|discriminate].
    cbn [mbind outcome_bind] in H.
    destruct (IH _ _ H) as (dicts & ->). by exists (items :: dicts).
Qed.

Lemma pack_values_nil_length acc data :
  pack_values [] acc = Return data → data = acc.
Proof. by intros [= <-]. Qed.

(** A call that returns was given a list of dicts. *)
Lemma build_preset_value_Return v out :
  build_preset_value v = Return out →
  ∃ dicts, v = PyList (PyDict <$> dicts)
           ∧ build_preset (Dyn.dict_of <$> dicts) = Ok out.
Proof.
  intros H.
  assert (Hlist : ∃ items, v = PyList items).
  { unfold build_preset_value in H.
    destruct v as [| | | |s|items|items]; try discriminate; [| eauto |].
    - destruct s as [|c s]; [|discriminate]. simpl in H. discriminate.
    - destruct items as [|kv items]; [|discriminate].
      simpl in H. discriminate. }
  destruct Hlist as (items & ->).
  assert (Hd : ∃ dicts, items = PyDict <$> dicts).
  { unfold build_preset_value in H. cbn [Dyn.iter mbind outcome_bind] in H.
    destruct (pack_values items []) as [data|e] eqn:Hp; [|discriminate].
    by eapply pack_values_Return. }
  destruct Hd as (dicts & ->). exists dicts. split; [done|].
  rewrite build_preset_value_typed in H.
  destruct (build_preset _); cbn [of_result] in H;
    [congruence | discriminate].
Qed.

(** X6: the edge cases of the argument of [build_preset]: an empty
    list, dict or str passes the loop and fails the size check with 112
    bytes; a number, a bool or None is not iterable; a non-empty dict or
    str, and a list that starts with anything but a dict, fail at the
    first [band.get]. *)
Theorem build_preset_argument_edges :
  (∀ v, v = PyList [] ∨ v = PyDict [] ∨ v = PyStr "" →
        build_preset_value v
        = Throw (Builtin (AssertionError
                            "Preset size mismatch: 112 != 240")))
  ∧ (∀ v, Dyn.type_name v ∈ ["NoneType"; "bool"; "int"; "float"]%string →
          build_preset_value v = Throw (NotIterable (Dyn.type_name v)))
  ∧ (∀ kv items, build_preset_value (PyDict (kv :: items))
                 = Throw (AttributeError "str" "get"))
  ∧ (∀ c s, build_preset_value (PyStr (String c s))
            = Throw (AttributeError "str" "get"))
  ∧ (∀ band rest, Dyn.type_name band ≠ "dict"%string →
       build_preset_value (PyList (band :: rest))
       = Throw (AttributeError (Dyn.type_name band) "get")).
Proof.
  repeat split.
  - intros v [-> | [-> | ->]]; reflexivity.
  - intros v Hv. rewrite !list_elem_of_In in Hv. simpl in Hv.
    destruct v; try reflexivity; simpl in Hv;
      destruct Hv as [Hv | [Hv | [Hv | [Hv | []]]]]; discriminate.
  - intros band rest Hband. by destruct band.
Qed.

(** ** [generate_preset] *)

Lemma generate_preset_steps os device dir w :
  generate_preset os device dir w =
  match preset_and_path device dir with
  | Throw e => (w, Throw e)
  | Return (data, path) =>
      match makedirs os (Path.dirname path) w with
      | (w1, Throw e) => (w1, Throw e)
      | (w1, Return _) =>
          match write_binary os path data w1 with
          | (w2, Throw e) => (w2, Throw e)
          | (w2, Return _) => (w2, Return path)
          end
      end
  end.
Proof.
  unfold generate_preset, preset_and_path, bind, pure, ret.
  destruct (Dyn.subscript device "bands" ≫= build_preset_value)
    as [data|e]; [|done].
  cbn [mbind outcome_bind].
  destruct (default_filename device ≫= _) as [filename|e]; [|done].
  cbn [mbind outcome_bind].
  destruct (Path.join dir filename) as [path|e]; [|done].
  cbn [mbind outcome_bind].
  destruct (makedirs os (Path.dirname path) w) as [w1 [[]|e]]; [|done].
  by destruct (write_binary os path data w1) as [w2 [[]|e]].
Qed.

Lemma preset_and_path_Return device dir data path :
  preset_and_path device dir = Return (data, path) →
  ∃ bands filename,
    Dyn.subscript device "bands" = Return bands
    ∧ build_preset_value bands = Return data
    ∧ (dflt ← default_filename device;
       Dyn.get device "filename" (PyStr dflt)) = Return filename
    ∧ Path.join dir filename = Return path.
Proof.
  unfold preset_and_path. intros H.
  destruct (Dyn.subscript device "bands") as [bands|] eqn:Hb;
    [|discriminate].
  cbn [mbind outcome_bind] in H.
  destruct (build_preset_value bands) as [data'|] eqn:Hd; [|discriminate].
  cbn [mbind outcome_bind] in H.
  destruct (default_filename device ≫= _) as [filename|] eqn:Hf;
    [|discriminate].
  cbn [mbind outcome_bind] in H.
  destruct (Path.join dir filename) as [path'|] eqn:Hp; [|discriminate].
  cbn [mbind outcome_bind] in H. injection H as -> ->.
  by exists bands, filename.
Qed.

Lemma build_preset_value_length v data :
  build_preset_value v = Return data → length data = 240.
Proof.
  intros (dicts & _ & H)%build_preset_value_Return.
  by eapply build_preset_length.
Qed.

(** X7: [generate_preset] encodes before it touches the operating
    system.  If [device["bands"]] cannot be read or [build_preset] raises
    on it, the call raises that same exception and the state of the
    operating system is unchanged: no directory was made, no file was
    opened.  Whenever a call changes the state, the 240 bytes of the
    preset had been encoded before. *)
Theorem generate_preset_encodes_first os device dir w :
  (∀ e, (bands ← Dyn.subscript device "bands"; build_preset_value bands)
        = Throw e →
        generate_preset os device dir w = (w, Throw e))
  ∧ (∀ w' r, generate_preset os device dir w = (w', r) → w' ≠ w →
       ∃ bands data,
         Dyn.subscript device "bands" = Return bands
         ∧ build_preset_value bands = Return data
         ∧ length data = 240).
Proof.
  split.
  - intros e He. rewrite generate_preset_steps.
    unfold preset_and_path. by rewrite He.
  - intros w' r. rewrite generate_preset_steps.
    destruct (preset_and_path device dir) as [[data path]|e0] eqn:Hplan.
    + intros _ _.
      apply preset_and_path_Return in Hplan as (bands & _ & Hb & Hd & _).
      exists bands, data. repeat split; try done.
      by eapply build_preset_value_length.
    + intros [= <- _] Hne. done.
Qed.

Lemma generate_preset_encodes_first_witness :
  let os := logging_os PyNone in
  generate_preset os broken "out" []
  = ([], Throw (Builtin (AssertionError "Preset size mismatch: 224 != 240")))
  ∧ ∃ bands data,
      Dyn.subscript phone "bands" = Return bands
      ∧ build_preset_value bands = Return data
      ∧ length data = 240.
Proof.
  intros os. split.
  - apply (proj1 (generate_preset_encodes_first os broken "out" [])).
    vm_compute. reflexivity.
  - refine (proj2 (generate_preset_encodes_first os phone "out" [])
              [MadeDirs "out"; Wrote "out/Phone_Speaker.pst" scenario_preset]
              (Return "out/Phone_Speaker.pst") _ _).
    + vm_compute. reflexivity.
    + discriminate.
Defined.

(** X8: when [generate_preset] returns a path, the directory of the path
    was made first, then exactly the 240 bytes of the preset of the
    device were written at that path, which is [os.path.join] of the
    output directory and the file name. *)
Theorem generate_preset_returns os device dir w w' path :
  generate_preset os device dir w = (w', Return path) →
  ∃ bands data filename w1,
    Dyn.subscript device "bands" = Return bands
    ∧ build_preset_value bands = Return data
    ∧ length data = 240
    ∧ Path.join dir filename = Return path
    ∧ makedirs os (Path.dirname path) w = (w1, Return ())
    ∧ write_binary os path data w1 = (w', Return ()).
Proof.
  rewrite generate_preset_steps.
  destruct (preset_and_path device dir) as [[data path']|e0] eqn:Hplan;
    [|discriminate].
  destruct (makedirs os (Path.dirname path') w) as [w1 [[]|e1]] eqn:Hm;
    [|discriminate].
  destruct (write_binary os path' data w1) as [w2 [[]|e2]] eqn:Hw;
    [|discriminate].
  intros [= -> ->].
  apply preset_and_path_Return in Hplan as (bands & fn & Hb & Hd & _ & Hp).
  exists bands, data, fn, w1. repeat split; try done.
  by eapply build_preset_value_length.
Qed.

Lemma generate_preset_returns_witness :
  generate_preset (logging_os PyNone) phone "out" []
  = ([MadeDirs "out"; Wrote "out/Phone_Speaker.pst" scenario_preset],
     Return "out/Phone_Speaker.pst")
  ∧ length scenario_preset = 240.
Proof.
  assert (H : generate_preset (logging_os PyNone) phone "out" []
    = ([MadeDirs "out"; Wrote "out/Phone_Speaker.pst" scenario_preset],
       Return "out/Phone_Speaker.pst")) by (vm_compute; reflexivity).
  split; [exact H|].
  destruct (generate_preset_returns _ _ _ _ _ _ H)
    as (bands & data & fn & w1 & _ & _ & Hlen & _ & Hm & Hw).
  vm_compute in Hm. injection Hm as <-.
  vm_compute in Hw. injection Hw as ->. exact Hlen.
Defined.

(** ** The file name and the output path *)

Lemma map_chars_cons f c s :
  Dyn.map_chars f (String c s) = String (f c) (Dyn.map_chars f s).
Proof. reflexivity. Qed.

Lemma map_chars_length f s :
  String.length (Dyn.map_chars f s) = String.length s.
Proof.
  induction s as [|c s IH]; [done|].
  rewrite map_chars_cons. simpl. by rewrite IH.
Qed.

Lemma map_chars_get f s : ∀ i,
  String.get i (Dyn.map_chars f s) = f <$> String.get i s.
Proof.
  induction s as [|c s IH]; intros i; [done|].
  rewrite map_chars_cons. destruct i as [|i]; simpl; [done|apply IH].
Qed.

Lemma preset_and_path_filename device dir data path :
  preset_and_path device dir = Return (data, path) →
  ∃ dflt filename,
    default_filename device = Return dflt
    ∧ Dyn.get device "filename" (PyStr dflt) = Return filename
    ∧ Path.join dir filename = Return path.
Proof.
  intros (bands & fn & _ & _ & Hf & Hp)%preset_and_path_Return.
  destruct (default_filename device) as [dflt|]; [|discriminate].
  by exists dflt, fn.
Qed.

Lemma generate_preset_plan os device dir w w' path :
  generate_preset os device dir w = (w', Return path) →
  ∃ data, preset_and_path device dir = Return (data, path).
Proof.
  rewrite generate_preset_steps.
  destruct (preset_and_path device dir) as [[data path']|]; [|discriminate].
  destruct (makedirs os _ w) as [w1 [[]|]]; [|discriminate].
  destruct (write_binary os _ _ w1) as [w2 [[]|]]; [|discriminate].
  intros [= -> ->]. by exists data.
Qed.

(** X9: for a device without a filename entry the file is named after
    the device: the name with every space replaced by an underscore,
    followed by [.pst]; the stem is as long as the name and holds no
    space. *)
Theorem generated_file_name os entries name dir w w' path :
  Dyn.dict_of entries !! "filename"%string = None →
  Dyn.dict_of entries !! "name"%string = Some (PyStr name) →
  generate_preset os (PyDict entries) dir w = (w', Return path) →
  ∃ stem,
    Path.join dir (PyStr (stem +:+ ".pst")) = Return path
    ∧ String.length stem = String.length name
    ∧ (∀ i, String.get i stem ≠ Some " "%char)
    ∧ (∀ i c, String.get i name = Some c → c ≠ " "%char →
              String.get i stem = Some c)
    ∧ (∀ i, String.get i name = Some " "%char →
            String.get i stem = Some "_"%char).
Proof.
  intros Hfn Hname (data & Hplan)%generate_preset_plan.
  apply preset_and_path_filename in Hplan as (dflt & fn & Hd & Hg & Hp).
  unfold default_filename, Dyn.subscript, Py.getitem in Hd.
  rewrite Hname in Hd. cbn in Hd. injection Hd as <-.
  unfold Dyn.get, Py.dict_get in Hg. rewrite Hfn in Hg.
  cbn in Hg. injection Hg as <-.
  eexists. split; [exact Hp|]. split; [apply map_chars_length|].
  split; [|split].
  - intros i. rewrite map_chars_get.
    destruct (String.get i name) as [c|]; [|done]. simpl.
    destruct (Ascii.eqb c " ") eqn:E; [done|].
    intros [= ->]. by rewrite Ascii.eqb_refl in E.
  - intros i c Hc Hne. rewrite map_chars_get, Hc. simpl.
    destruct (Ascii.eqb_spec c " "); [done|done].
  - intros i Hc. rewrite map_chars_get, Hc. done.
Qed.

Lemma generated_file_name_witness :
  generate_preset (logging_os PyNone) phone "out" []
  = ([MadeDirs "out"; Wrote "out/Phone_Speaker.pst" scenario_preset],
     Return "out/Phone_Speaker.pst")
  ∧ ∃ stem,
      Path.join "out" (PyStr (stem +:+ ".pst"))
      = Return "out/Phone_Speaker.pst"
      ∧ String.length stem = String.length "Phone Speaker"
      ∧ (∀ i, String.get i stem ≠ Some " "%char)
      ∧ (∀ i c, String.get i "Phone Speaker" = Some c → c ≠ " "%char →
                String.get i stem = Some c)
      ∧ (∀ i, String.get i "Phone Speaker" = Some " "%char →
              String.get i stem = Some "_"%char).
Proof.
  assert (H : generate_preset (logging_os PyNone) phone "out" []
    = ([MadeDirs "out"; Wrote "out/Phone_Speaker.pst" scenario_preset],
       Return "out/Phone_Speaker.pst")) by (vm_compute; reflexivity).
  split; [exact H|].
  refine (generated_file_name (logging_os PyNone) _ "Phone Speaker" "out"
            [] _ _ _ _ H); vm_compute; reflexivity.
Defined.

(** X10: the default file name is computed even when the device has a
    filename entry: a device whose bands encode but which has no name
    raises KeyError('name') and nothing is written, whether or not it
    names its file. *)
Theorem filename_needs_name os entries bands data dir w :
  Dyn.dict_of entries !! "bands"%string = Some bands →
  build_preset_value bands = Return data →
  Dyn.dict_of entries !! "name"%string = None →
  generate_preset os (PyDict entries) dir w
  = (w, Throw (Builtin (KeyError "name"))).
Proof.
  intros Hb Hd Hn. rewrite generate_preset_steps.
  unfold preset_and_path, default_filename, Dyn.subscript, Py.getitem.
  rewrite Hb, Hn. cbn [of_result mbind outcome_bind]. by rewrite Hd.
Qed.

Lemma filename_needs_name_witness :
  generate_preset (logging_os PyNone)
    (PyDict [ ("filename", PyStr "x.pst");
              ("bands", PyList (replicate 8 flat_band)) ]%string) "out" []
  = ([], Throw (Builtin (KeyError "name"))).
Proof.
  apply (filename_needs_name (logging_os PyNone) _
           (PyList (replicate 8 flat_band)) bare_laptop_preset);
    vm_compute; reflexivity.
Defined.

Lemma prefix_app a b : String.prefix a (a +:+ b) = true.
Proof.
  induction a as [|c a IH]; simpl; [by destruct b|].
  by destruct (Ascii.ascii_dec c c).
Qed.

Lemma string_app_list a b :
  list_ascii_of_string (a +:+ b)
  = list_ascii_of_string a ++ list_ascii_of_string b.
Proof. induction a as [|c a IH]; [done|]. simpl. by rewrite IH. Qed.

Lemma list_app_string l1 l2 :
  string_of_list_ascii (l1 ++ l2)
  = string_of_list_ascii l1 +:+ string_of_list_ascii l2.
Proof. induction l1 as [|c l1 IH]; [done|]. simpl. by rewrite IH. Qed.

Lemma starts_with_sep_spec f :
  Path.starts_with_sep f = true ↔ ∃ r, f = "/" +:+ r.
Proof.
  split.
  - destruct f as [|c r]; [done|]. simpl.
    destruct (Ascii.eqb_spec c "/"); [|done]. subst c. by exists r.
  - by intros (r & ->).
Qed.

Lemma ends_with_sep_spec dir :
  Path.ends_with_sep dir = true ↔ ∃ d, dir = d +:+ "/".
Proof.
  unfold Path.ends_with_sep. split.
  - destruct (rev (list_ascii_of_string dir)) as [|c t] eqn:E; [done|].
    destruct (Ascii.eqb_spec c "/"); [|done]. subst c. intros _.
    exists (string_of_list_ascii (rev t)).
    rewrite <- (string_of_list_ascii_of_string dir).
    rewrite <- (rev_involutive (list_ascii_of_string dir)), E.
    simpl. by rewrite list_app_string.
  - intros (d & ->). rewrite string_app_list, rev_app_distr. done.
Qed.

Lemma empty_dir_spec dir : String.eqb dir "" = true ↔ dir = ""%string.
Proof. apply String.eqb_eq. Qed.

(** X11: an explicit file name that starts with [/] is the output path
    itself, whatever the output directory; any other explicit file name
    is appended to the output directory, directly when the directory is
    empty or ends with [/], and with a [/] in between otherwise; the
    path then starts with the output directory. *)
Theorem explicit_filename_path os entries f dir w w' path :
  Dyn.dict_of entries !! "filename"%string = Some (PyStr f) →
  generate_preset os (PyDict entries) dir w = (w', Return path) →
  ((∃ r, f = "/" +:+ r) → path = f)
  ∧ ((∀ r, f ≠ "/" +:+ r) →
     (dir = ""%string ∨ (∃ d, dir = d +:+ "/") → path = dir +:+ f)
     ∧ (dir ≠ ""%string → (∀ d, dir ≠ d +:+ "/") →
        path = dir +:+ "/" +:+ f)
     ∧ String.prefix dir path = true).
Proof.
  intros Hfn (data & Hplan)%generate_preset_plan.
  apply preset_and_path_filename in Hplan as (dflt & fn & _ & Hg & Hp).
  unfold Dyn.get, Py.dict_get in Hg. rewrite Hfn in Hg.
  cbn in Hg. injection Hg as <-. unfold Path.join in Hp.
  destruct (Path.starts_with_sep f) eqn:Hs.
  - injection Hp as <-. split; [done|].
    intros Hrel. apply starts_with_sep_spec in Hs as (r & ->).
    by destruct (Hrel r).
  - split.
    { intros Habs%starts_with_sep_spec. congruence. }
    intros _. revert Hp.
    destruct (String.eqb dir "") eqn:He;
      [|destruct (Path.ends_with_sep dir) eqn:Hd];
      cbn [orb]; intros [= <-].
    + split; [done|]. split; [|apply prefix_app].
      intros Hne. apply empty_dir_spec in He. done.
    + split; [done|]. split; [|apply prefix_app].
      intros _ Hno. apply ends_with_sep_spec in Hd as (d & ->).
      by destruct (Hno d).
    + split; [|split; [done | apply prefix_app]].
      intros [Hd' | Hd'];
        [apply empty_dir_spec in Hd' | apply ends_with_sep_spec in Hd'];
        congruence.
Qed.

Lemma explicit_filename_path_witness :
  let absolute :=
    PyDict [ ("name", PyStr "Laptop");
             ("filename", PyStr "/tmp/laptop.pst");
             ("bands", PyList (replicate 8 flat_band)) ]%string in
  generate_preset (logging_os PyNone) laptop "out" []
  = ([MadeDirs "out/devices";
      Wrote "out/devices/laptop.pst" bare_laptop_preset],
     Return "out/devices/laptop.pst")
  ∧ "out/devices/laptop.pst"%string = "out" +:+ "/" +:+ "devices/laptop.pst"
  ∧ generate_preset (logging_os PyNone) absolute "out" []
    = ([MadeDirs "/tmp"; Wrote "/tmp/laptop.pst" bare_laptop_preset],
       Return "/tmp/laptop.pst")
  ∧ "/tmp/laptop.pst"%string = "/tmp/laptop.pst"%string.
Proof.
  intros absolute.
  assert (H : generate_preset (logging_os PyNone) laptop "out" []
    = ([MadeDirs "out/devices";
        Wrote "out/devices/laptop.pst" bare_laptop_preset],
       Return "out/devices/laptop.pst")) by (vm_compute; reflexivity).
  assert (H' : generate_preset (logging_os PyNone) absolute "out" []
    = ([MadeDirs "/tmp"; Wrote "/tmp/laptop.pst" bare_laptop_preset],
       Return "/tmp/laptop.pst")) by (vm_compute; reflexivity).
  split; [exact H|]. split; [|split; [exact H'|]].
  - refine (proj1 (proj2 (proj2 (explicit_filename_path (logging_os PyNone)
              _ "devices/laptop.pst" "out" [] _ _ _ H) _)) _ _).
    + vm_compute. reflexivity.
    + intros r Hr. discriminate Hr.
    + discriminate.
    + intros d Hd. destruct d as [|c0 [|c1 [|c2 [|c3 d]]]]; discriminate Hd.
  - refine (proj1 (explicit_filename_path (logging_os PyNone)
              _ "/tmp/laptop.pst" "out" [] _ _ _ H') _).
    + vm_compute. reflexivity.
    + by exists "tmp/laptop.pst"%string.
Defined.

(** ** The count of active bands *)

Lemma count_active_typed dicts :
  count_active (PyDict <$> dicts)
  = Return (length (List.filter
      (λ d, negb (Py.is_False (Py.dict_get (Dyn.dict_of d) "enabled" PyNone)))
      dicts)).
Proof.
  induction dicts as [|d rest IH]; [done|].
  change (PyDict <$> d :: rest) with (PyDict d :: (PyDict <$> rest)).
  cbn [count_active Dyn.get mbind outcome_bind List.filter].
  rewrite IH. cbn [mbind outcome_bind].
  by destruct (Py.is_False _).
Qed.

Lemma flag_word band :
  (Struct.unpack_I (f32le (enabled_float band)) =? 0x3f800000)%Z
  = negb (Py.is_False (Py.dict_get band "enabled" PyNone)).
Proof. unfold enabled_float. by destruct (Py.is_False _). Qed.

Lemma count_by_index {A} (l : list A) (f : nat → bool) (g : A → bool) :
  ∀ k, (∀ i a, l !! i = Some a → f (k + i) = g a) →
       length (List.filter f (seq k (length l)))
       = length (List.filter g l).
Proof.
  induction l as [|a l IH]; intros k H; [done|].
  simpl. rewrite <- (H 0 a eq_refl), Nat.add_0_r.
  assert (IH' : length (List.filter f (seq (S k) (length l)))
                = length (List.filter g l)).
  { apply IH. intros i b Hi. rewrite <- (H (S i) b Hi). f_equal. lia. }
  destruct (f k); simpl; by rewrite IH'.
Qed.

(** X12: the count of active bands that [list_devices] and [main] print
    is the number of band records of the preset whose enabled float is
    1.0 (the word 0x3f800000). *)
Theorem active_bands_match_preset bands out :
  build_preset_value bands = Return out →
  active_bands bands
  = Return (length (List.filter
      (λ i, (Struct.unpack_I (field 1 (record_at i out)) =? 0x3f800000)%Z)
      (seq 0 8))).
Proof.
  intros (dicts & -> & Hout)%build_preset_value_Return.
  unfold active_bands. cbn [Dyn.iter mbind outcome_bind].
  rewrite count_active_typed. f_equal. symmetry.
  destruct (build_preset_Ok _ _ Hout) as (Hn & _).
  rewrite length_fmap in Hn. rewrite <- Hn.
  apply count_by_index. intros i d Hi. simpl.
  assert (Hb : (Dyn.dict_of <$> dicts) !! i = Some (Dyn.dict_of d))
    by by rewrite list_lookup_fmap, Hi.
  destruct (record_at_spec _ _ _ _ Hout Hb)
    as (_ & q & fv & f & g & _ & _ & _ & _ & _ & _ & _ & ->).
  destruct (fields_of_record q (enabled_float (Dyn.dict_of d)) f g)
    as (_ & _ & -> & _ & _).
  apply flag_word.
Qed.

Lemma active_bands_match_preset_witness :
  build_preset_value (PyList (replicate 7 flat_band ++ [cut_band]))
  = Return scenario_preset
  ∧ active_bands (PyList (replicate 7 flat_band ++ [cut_band])) = Return 7.
Proof.
  assert (H : build_preset_value
                (PyList (replicate 7 flat_band ++ [cut_band]))
              = Return scenario_preset) by (vm_compute; reflexivity).
  split; [exact H|].
  rewrite (active_bands_match_preset _ _ H). vm_compute. reflexivity.
Defined.

(** ** The loop of [main] *)

Lemma generate_and_report_steps os dir device w :
  generate_and_report os dir device w =
  match generate_preset os device dir w with
  | (w1, Throw e) => (w1, Throw e)
  | (w1, Return path) =>
      match summary_line os device path with
      | Throw e => (w1, Throw e)
      | Return line => print_out os line w1
      end
  end.
Proof.
  unfold generate_and_report, bind, pure.
  destruct (generate_preset os device dir w) as [w1 [path|e]]; [|done].
  destruct (summary_line os device path) as [line|e]; [|done].
  by destruct (print_out os line w1) as [w2 [[]|e]].
Qed.

Lemma band_ok_has_frequency d :
  band_ok d = true → ∃ fv, d !! "frequency"%string = Some fv.
Proof.
  unfold band_ok. destruct (d !! "frequency"%string) as [fv|]; [eauto|].
  by rewrite andb_false_r.
Qed.

Lemma summary_line_Return os device dir w w' path :
  generate_preset os device dir w = (w', Return path) →
  ∃ line, summary_line os device path = Return line.
Proof.
  intros (data & Hplan)%generate_preset_plan.
  pose proof Hplan as (dflt & fn & Hd & _ & _)%preset_and_path_filename.
  apply preset_and_path_Return in Hplan as (bands & _ & Hb & Hdata & _ & _).
  apply build_preset_value_Return in Hdata as (dicts & -> & Hout).
  destruct (build_preset_Ok _ _ Hout) as (Hn & _).
  apply build_preset_Ok_packs in Hout.
  rewrite length_fmap in Hn.
  destruct dicts as [|d0 [|d1 [|d2 [|d3 [|d4 [|d5 [|d6 [|d7 [|]]]]]]]]];
    try discriminate.
  cbn [fmap list_fmap forallb] in Hout.
  rewrite !andb_true_iff in Hout.
  destruct Hout as (H0 & _ & _ & _ & _ & _ & _ & H7 & _).
  apply band_ok_has_frequency in H0 as (f0 & Hf0).
  apply band_ok_has_frequency in H7 as (f7 & Hf7).
  unfold default_filename in Hd.
  destruct (Dyn.subscript device "name") as [name|] eqn:Hname;
    [|discriminate].
  cbn [mbind outcome_bind] in Hd.
  destruct name as [| | | |name| |]; try discriminate.
  unfold summary_line. rewrite Hb, Hname. cbn [mbind outcome_bind].
  unfold active_bands. cbn [Dyn.iter mbind outcome_bind].
  rewrite (count_active_typed [d0; d1; d2; d3; d4; d5; d6; d7]).
  cbn [mbind outcome_bind Dyn.index lookup list_lookup fmap list_fmap
       Dyn.subscript].
  unfold Py.getitem. rewrite Hf0, Hf7.
  cbn [of_result mbind outcome_bind Dyn.ljust22].
  eauto.
Qed.

(** X13: once [generate_preset] has written the file of a device, the
    summary line of [main] cannot fail: its lookups [bands[0]],
    [bands[7]], [["frequency"]] and the formatting of the name all
    succeed, so the loop body raises only where [generate_preset] or
    the print raises. *)
Theorem report_fails_only_in_print os dir device w w' e :
  generate_and_report os dir device w = (w', Throw e) →
  generate_preset os device dir w = (w', Throw e)
  ∨ ∃ w1 path line,
      generate_preset os device dir w = (w1, Return path)
      ∧ summary_line os device path = Return line
      ∧ print_out os line w1 = (w', Throw e).
Proof.
  rewrite generate_and_report_steps.
  destruct (generate_preset os device dir w) as [w1 [path|e1]] eqn:Hg.
  - destruct (summary_line_Return _ _ _ _ _ _ Hg) as (line & Hline).
    rewrite Hline. intros Hp. right. by exists w1, path, line.
  - intros [= -> ->]. by left.
Qed.

Lemma report_fails_only_in_print_witness :
  let os := logging_os PyNone in
  let e := Builtin (AssertionError "Preset size mismatch: 224 != 240") in
  generate_and_report os "out" broken [] = ([], Throw e)
  ∧ (generate_preset os broken "out" [] = ([], Throw e)
     ∨ ∃ w1 path line,
         generate_preset os broken "out" [] = (w1, Return path)
         ∧ summary_line os broken path = Return line
         ∧ print_out os line w1 = ([], Throw e)).
Proof.
  intros os e.
  assert (H : generate_and_report os "out" broken [] = ([], Throw e))
    by (vm_compute; reflexivity).
  split; [exact H|]. exact (report_fails_only_in_print _ _ _ _ _ _ H).
Defined.

Lemma for_each_app {os A} (body : A → M os unit) done rest w w1 :
  for_each done body w = (w1, Return ()) →
  for_each (done ++ rest) body w = for_each rest body w1.
Proof.
  revert w. induction done as [|x done IH]; intros w H.
  - by injection H as ->.
  - simpl in *. unfold bind in *.
    destruct (body x w) as [w0 [[]|e]]; [|discriminate]. by apply IH.
Qed.

Lemma chars_length s : length (Dyn.chars s) = String.length s.
Proof. induction s as [|c s IH]; [done|]. simpl. by rewrite IH. Qed.

Lemma iter_len v items :
  Dyn.iter v = Return items → Dyn.len v = Return (length items).
Proof.
  destruct v; try discriminate; simpl; intros [= <-].
  - by rewrite chars_length.
  - done.
  - by rewrite length_fmap.
Qed.

(** X14: [main] has no recovery.  When the report or the generation of
    a target raises, [main] itself ends with that exception, in the
    state of that moment: what was done for the targets before it (their
    files, their printed lines) stays, and the targets after it are not
    processed, nor is the closing line printed. *)
Theorem main_stops_at_first_failure os args devices targets dir
    done d rest w w1 w2 w3 w4 w5 w6 w7 e :
  list_flag args = false →
  load_devices os (config args) w = (w1, Return devices) →
  makedirs os (output args) w1 = (w2, Return ()) →
  select_targets os devices (device args) w2 = (w3, Return targets) →
  Dyn.iter targets = Return (done ++ d :: rest) →
  abspath os (output args) w3 = (w4, Return dir) →
  print_out os ("Generating " +:+ pretty (length (done ++ d :: rest))
                +:+ " preset(s) -> " +:+ dir +:+ "/" +:+ newline) w4
  = (w5, Return ()) →
  for_each done (generate_and_report os (output args)) w5
  = (w6, Return ()) →
  generate_and_report os (output args) d w6 = (w7, Throw e) →
  main os args w = (w7, Throw e).
Proof.
  intros Hlist Hload Hmk Hsel Hiter Habs Hprint Hdone Hd.
  unfold main, bind at 1. rewrite Hload, Hlist.
  unfold bind at 1. rewrite Hmk.
  unfold bind at 1. rewrite Hsel.
  unfold bind at 1, pure at 1. rewrite (iter_len _ _ Hiter).
  unfold bind at 1. rewrite Habs.
  unfold bind at 1. rewrite Hprint.
  unfold bind at 1, pure at 1. rewrite Hiter.
  unfold bind at 1. rewrite (for_each_app _ _ _ _ _ Hdone).
  cbn [for_each]. unfold bind at 1. by rewrite Hd.
Qed.

Lemma main_stops_at_first_failure_witness :
  main (logging_os (PyDict [("devices", PyList [phone; broken; laptop])]%string))
    {| config := "devices.json"; output := "out";
       list_flag := false; device := None |} []
  = ([ MadeDirs "out";
       Printed ("Generating 3 preset(s) -> /home/user/out/" +:+ newline);
       MadeDirs "out"; Wrote "out/Phone_Speaker.pst" scenario_preset;
       Printed "  Phone Speaker          7/8 bands  HP=?Hz  LP=?Hz  ->  Phone_Speaker.pst" ],
     Throw (Builtin (AssertionError "Preset size mismatch: 224 != 240"))).
Proof.
  apply (main_stops_at_first_failure
           (logging_os (PyDict [("devices", PyList [phone; broken; laptop])]%string))
           _ (PyList [phone; broken; laptop]) (PyList [phone; broken; laptop])
           "/home/user/out" [phone] broken [laptop]
           [] [] [MadeDirs "out"] [MadeDirs "out"] [MadeDirs "out"]
           [ MadeDirs "out";
             Printed ("Generating 3 preset(s) -> /home/user/out/" +:+ newline) ]
           [ MadeDirs "out";
             Printed ("Generating 3 preset(s) -> /home/user/out/" +:+ newline);
             MadeDirs "out"; Wrote "out/Phone_Speaker.pst" scenario_preset;
             Printed "  Phone Speaker          7/8 bands  HP=?Hz  LP=?Hz  ->  Phone_Speaker.pst" ]);
    vm_compute; reflexivity.
Defined.

(** ** [main]: selection and list mode *)

Lemma matching_none query items :
  Forall (λ d, ∃ name,
            Dyn.subscript d "name" = Return (PyStr name)
            ∧ Dyn.contains query (Dyn.map_chars Py.lower name) = false)
         items →
  matching query items = Return [].
Proof.
  induction 1 as [|d rest (name & Hname & Hno) _ IH]; [done|].
  cbn [matching]. rewrite Hname. cbn [mbind outcome_bind Dyn.lower].
  rewrite IH. cbn [mbind outcome_bind]. by rewrite Hno.
Qed.

(** X15: when [--device] is given and no device name contains it (both
    in lower case; the option and the names being ASCII text), [main]
    has already created the output directory; it prints the message to
    stderr and exits with status 1 without generating anything. *)
Theorem no_match_exits_with_1 os args arg devices items w w1 w2 w3 :
  list_flag args = false →
  device args = Some arg → arg ≠ ""%string → ascii_only arg = true →
  load_devices os (config args) w = (w1, Return devices) →
  makedirs os (output args) w1 = (w2, Return ()) →
  Dyn.iter devices = Return items →
  Forall (λ d, ∃ name,
            Dyn.subscript d "name" = Return (PyStr name)
            ∧ ascii_only name = true
            ∧ Dyn.contains (Dyn.map_chars Py.lower arg)
                (Dyn.map_chars Py.lower name) = false)
         items →
  print_err os ("No device matching '" +:+ arg
                +:+ "'. Use --list to see options.") w2
  = (w3, Return ()) →
  main os args w = (w3, Throw (SystemExit 1)).
Proof.
  intros Hlist Hdev Hne _ Hload Hmk Hiter Hnone Hprint.
  assert (Hnone' : Forall (λ d, ∃ name,
            Dyn.subscript d "name" = Return (PyStr name)
            ∧ Dyn.contains (Dyn.map_chars Py.lower arg)
                (Dyn.map_chars Py.lower name) = false) items).
  { eapply Forall_impl; [exact Hnone|].
    intros d (name & Hname & _ & Hno). by exists name. }
  clear Hnone. rename Hnone' into Hnone.
  unfold main, bind. rewrite Hload, Hlist, Hmk.
  unfold select_targets. rewrite Hdev.
  destruct (String.eqb_spec arg ""); [done|].
  unfold bind, pure. rewrite Hiter. cbn [mbind outcome_bind].
  rewrite (matching_none _ _ Hnone). by rewrite Hprint.
Qed.

Lemma no_match_exits_with_1_witness :
  main (logging_os (PyDict [("devices", PyList [phone; laptop])]%string))
    {| config := "devices.json"; output := "out";
       list_flag := false; device := Some "TV"%string |} []
  = ([ MadeDirs "out";
       PrintedErr "No device matching 'TV'. Use --list to see options." ],
     Throw (SystemExit 1)).
Proof.
  apply (no_match_exits_with_1
           (logging_os (PyDict [("devices", PyList [phone; laptop])]%string))
           _ "TV" (PyList [phone; laptop]) [phone; laptop]
           [] [] [MadeDirs "out"]); try (vm_compute; reflexivity).
  - discriminate.
  - repeat constructor.
    + exists "Phone Speaker"%string. repeat split; vm_compute; reflexivity.
    + exists "Laptop"%string. repeat split; vm_compute; reflexivity.
Defined.

(** X16: with [--list], [main] only reads the configuration and prints
    to stdout: whatever [os.makedirs], the file write, [os.path.abspath]
    and the print to stderr would do, the run is the same. *)
Theorem list_mode_reads_and_prints_only os mk wr ab pe args w :
  list_flag args = true →
  main {| World := World os; makedirs := mk; write_binary := wr;
          read_json := read_json os; abspath := ab;
          print_out := print_out os; print_err := pe;
          str_of := str_of os |} args w
  = main os args w.
Proof.
  intros H. set (os' := {| World := World os; makedirs := mk |}).
  unfold main, bind. rewrite H.
  change (load_devices os' (config args) w)
    with (load_devices os (config args) w).
  destruct (load_devices os (config args) w) as [w1 [devices|e]]; [|done].
  unfold list_devices, bind, pure.
  destruct (Dyn.len devices) as [n|e]; [|done].
  change (print_out os') with (print_out os).
  destruct (print_out os _ w1) as [w2 [[]|e]]; [|done].
  destruct (Dyn.iter devices) as [items|e]; [|done].
  assert (Hloop : ∀ w0,
    for_each (os := os') items
      (λ d w, match listing_line os' d with
              | Return line => print_out os line w
              | Throw e => (w, Throw e)
              end) w0
    = for_each (os := os) items
      (λ d w, match listing_line os d with
              | Return line => print_out os line w
              | Throw e => (w, Throw e)
              end) w0).
  { induction items as [|d items IH]; intros w0; [done|].
    cbn [for_each]. unfold bind.
    change (listing_line os' d) with (listing_line os d).
    destruct (listing_line os d) as [line|e]; [|done].
    destruct (print_out os line w0) as [w0' [[]|e]]; [apply IH|done]. }
  rewrite Hloop. reflexivity.
Qed.

Lemma list_mode_reads_and_prints_only_witness :
  let doc := PyDict [("devices", PyList [phone; broken])]%string in
  let args := {| config := "devices.json"; output := "out";
                 list_flag := true; device := None |} in
  main (readonly_os doc) args [] = main (logging_os doc) args []
  ∧ main (logging_os doc) args []
    = ([ Printed ("Available devices (2):" +:+ newline);
         Printed "  Phone Speaker          7/8 bands active  ->  ?";
         Printed "  Broken                 7/8 bands active  ->  ?";
         Printed "" ],
       Return ()).
Proof.
  intros doc args. split; [|vm_compute; reflexivity].
  exact (list_mode_reads_and_prints_only (logging_os doc)
           (makedirs (readonly_os doc)) (write_binary (readonly_os doc))
           (abspath (readonly_os doc)) (print_err (readonly_os doc))
           args [] eq_refl).
Defined.

(** X17: the [--device] filter reads the name of every device before it
    selects: one device whose name is missing or is not a str makes the
    selection raise, whatever the query and whatever the other devices
    are. *)
Theorem filter_needs_every_name query items i d :
  items !! i = Some d →
  (∀ name, Dyn.subscript d "name" ≠ Return (PyStr name)) →
  ∃ e, matching query items = Throw e.
Proof.
  revert i. induction items as [|d0 rest IH]; intros i Hi Hbad; [done|].
  cbn [matching].
  destruct (Dyn.subscript d0 "name") as [name|e] eqn:Hname;
    cbn [mbind outcome_bind]; [|eauto].
  destruct name as [| | | |name| |]; cbn [Dyn.lower mbind outcome_bind];
    eauto.
  destruct i as [|i]; simpl in Hi.
  - injection Hi as ->. by destruct (Hbad name).
  - destruct (IH i Hi Hbad) as (e & ->). cbn [mbind outcome_bind]. eauto.
Qed.

Lemma filter_needs_every_name_witness :
  matching "phone"
    [phone; PyDict [("bands", PyList (replicate 8 flat_band))]%string]
  = Throw (Builtin (KeyError "name")).
Proof.
  destruct (filter_needs_every_name "phone"
              [phone; PyDict [("bands", PyList (replicate 8 flat_band))]%string]
              1 _ eq_refl) as (e & He).
  - intros name H. vm_compute in H. discriminate H.
  - rewrite He. vm_compute in He. injection He as <-. reflexivity.
Defined.
